(** * Fraud-detection training script ([main.py]): a shallow embedding

    The script glues numpy, pandas, scikit-learn, imbalanced-learn and
    joblib together.  Its own logic (which object is built with which
    arguments, which call is made on which object, in which order, what is
    printed) is embedded here as executable definitions in a state-and-error
    monad over a small Python world: an object store with identities, numpy's
    global random state, the console and the file system.

    The numerical services of the libraries (sampling, tree fitting,
    rebalancing, scaling statistics, metrics) are not part of the repository.
    They enter through two interfaces, [Numpy] and [Sklearn], whose
    operations are arbitrary functions; what the script relies on of their
    documented behaviour is stated separately as [NumpyContract].  The
    structural part of the preprocessing (column selection, one-hot
    encoding with its [handle_unknown] switch, horizontal stacking) is
    written out. *)

From Stdlib Require Import QArith OrderedTypeEx Sorted.
From stdpp Require Import gmap strings list.

Open Scope string_scope.

(** ** Exceptions and results *)

Inductive exn :=
  | NameError (name : string)
  | KeyError (key : string)
  | AttributeError (attr : string)
  | TypeError (msg : string)
  | ValueError (msg : string)
  | IndexError (msg : string)
  | ModuleNotFoundError (module : string)
  | NotFittedError (what : string)
  | Unmodelled (what : string).

Definition result (A : Type) : Type := exn + A.

Definition Ok {A} (a : A) : result A := inr a.
Definition Raise {A} (e : exn) : result A := inl e.

Definition rbind {A B} (r : result A) (k : A → result B) : result B :=
  match r with
  | inl e => inl e
  | inr a => k a
  end.

Fixpoint rmapM {A B} (f : A → result B) (l : list A) : result (list B) :=
  match l with
  | [] => Ok []
  | a :: l' =>
      rbind (f a) (λ b, rbind (rmapM f l') (λ bs, Ok (b :: bs)))
  end.

(** ** Tables

    A pandas column has a dtype; [np.number] covers the float and integer
    ones.  float64 values are dyadic rationals and are carried as [Q]. *)

Inductive column :=
  | FloatCol (v : list Q)
  | IntCol (v : list Z)
  | ObjCol (v : list string).

Abbreviation DataFrame := (list (string * column)).

Inductive cell :=
  | CNum (q : Q)
  | CStr (s : string).

Definition cells (c : column) : list cell :=
  match c with
  | FloatCol v => CNum <$> v
  | IntCol v => (λ z, CNum (inject_Z z)) <$> v
  | ObjCol v => CStr <$> v
  end.

Definition is_number (c : column) : bool :=
  match c with
  | FloatCol _ | IntCol _ => true
  | ObjCol _ => false
  end.

Definition col_length (c : column) : nat := length (cells c).

(** Number of rows of a frame (the length of its index). *)
Definition nrows (X : DataFrame) : nat :=
  match X with
  | [] => 0
  | (_, c) :: _ => col_length c
  end.

Fixpoint df_lookup (X : DataFrame) (name : string) : option column :=
  match X with
  | [] => None
  | (k, c) :: X' => if String.eqb k name then Some c else df_lookup X' name
  end.

(** [df[name]] *)
Definition df_getitem (X : DataFrame) (name : string) : result column :=
  match df_lookup X name with
  | Some c => Ok c
  | None => Raise (KeyError name)
  end.

(** [df.drop(columns=names)]: every name must be a column. *)
Definition df_drop (X : DataFrame) (names : list string) : result DataFrame :=
  match List.find (λ k, negb (existsb (String.eqb k) (fst <$> X))) names with
  | Some k => Raise (KeyError k)
  | None =>
      Ok (List.filter (λ kc, negb (existsb (String.eqb (fst kc)) names)) X)
  end.

(** [X.select_dtypes(include=[np.number]).columns.tolist()] and its
    [exclude] twin. *)
Definition select_dtypes_include_number (X : DataFrame) : list string :=
  fst <$> List.filter (λ kc, is_number (snd kc)) X.

Definition select_dtypes_exclude_number (X : DataFrame) : list string :=
  fst <$> List.filter (λ kc, negb (is_number (snd kc))) X.

Abbreviation matrix := (list (list Q)).

(** ** Estimator configurations, as the constructors are called *)

Inductive handle_unknown := HU_error | HU_ignore.

Inductive transformer :=
  | StandardScaler
  | OneHotEncoder (hu : handle_unknown).

(** [ColumnTransformer([(name, transformer, columns), ...])] *)
Abbreviation ColumnTransformer :=
  (list (string * transformer * list string)).

Inductive classifier :=
  | RandomForestClassifier (n_estimators : nat) (random_state : Z)
  | XGBClassifier (n_estimators max_depth : nat) (learning_rate : Q)
                  (n_jobs : Z).

Definition is_random_forest (c : classifier) : bool :=
  match c with
  | RandomForestClassifier _ _ => true
  | XGBClassifier _ _ _ _ => false
  end.

(** ** The library interfaces *)

Class Numpy := {
  rng_state : Type;
  (** [np.random.seed(s)]: the global state becomes a function of [s]. *)
  np_random_seed : Z → rng_state;
  (** [np.random.exponential(scale, size)] *)
  np_random_exponential : Q → nat → rng_state → list Q * rng_state;
  (** [np.random.choice(a, size)] on a list of strings *)
  np_random_choice : list string → nat → rng_state → list string * rng_state;
  (** [np.random.randint(low, high, size)] *)
  np_random_randint : Z → Z → nat → rng_state → list Z * rng_state;
  (** [np.random.choice(a, size, p)] on a list of integers *)
  np_random_choice_p :
    list Z → list Q → nat → rng_state → list Z * rng_state;
}.

(** What numpy documents of these samplers and [generate_data] relies on:
    the requested number of draws, each inside the sampler's support. *)
Class NumpyContract {NP : Numpy} : Prop := {
  exponential_length scale n s :
    length (np_random_exponential scale n s).1 = n;
  exponential_support scale n s x :
    (0 < scale)%Q → x ∈ (np_random_exponential scale n s).1 → (0 <= x)%Q;
  choice_length a n s : length (np_random_choice a n s).1 = n;
  choice_support a n s x :
    a ≠ [] → x ∈ (np_random_choice a n s).1 → x ∈ a;
  randint_length lo hi n s : length (np_random_randint lo hi n s).1 = n;
  randint_support lo hi n s x :
    (lo < hi)%Z → x ∈ (np_random_randint lo hi n s).1 → (lo ≤ x < hi)%Z;
  choice_p_length a p n s : length (np_random_choice_p a p n s).1 = n;
  choice_p_support a p n s x :
    a ≠ [] → length p = length a →
    x ∈ (np_random_choice_p a p n s).1 → x ∈ a;
}.

Class Sklearn {NP : Numpy} := {
  (** [StandardScaler]: the statistics learned from one column, and their
      application to one value. *)
  scaler_stat : Type;
  scaler_fit : list Q → scaler_stat;
  scaler_apply : scaler_stat → Q → Q;
  (** A fitted classifier, and the three capabilities of the estimators. *)
  fitted_model : Type;
  estimator_fit : classifier → matrix → column → result fitted_model;
  estimator_predict : fitted_model → matrix → result (list Z);
  estimator_predict_proba : fitted_model → matrix → result matrix;
  (** [SMOTE(random_state=s).fit_resample(X, y)] *)
  smote_fit_resample : Z → matrix → column → result (matrix * column);
  (** [train_test_split(X, y, stratify=.., test_size=..)]; without a
      [random_state] argument it draws from numpy's global state. *)
  train_test_split :
    DataFrame → column → option column → Q → rng_state →
    result (DataFrame * DataFrame * column * column) * rng_state;
  classification_report : column → list Z → result string;
  roc_auc_score : column → list Q → result Q;
  (** [str] of a float, as [print] shows it. *)
  float_str : Q → string;
}.

(** ** The preprocessing plan, written out

    scikit-learn's [ColumnTransformer] fits every listed transformer on its
    own columns and stacks the transformed blocks side by side, in the
    order of the list. *)

Definition cell_compare (a b : cell) : comparison :=
  match a, b with
  | CNum p, CNum q => Qcompare p q
  | CStr s, CStr t => String.compare s t
  | CNum _, CStr _ => Lt
  | CStr _, CNum _ => Gt
  end.

Definition cell_eqb (a b : cell) : bool :=
  match cell_compare a b with
  | Eq => true
  | _ => false
  end.

Fixpoint insert_sorted (v : cell) (l : list cell) : list cell :=
  match l with
  | [] => [v]
  | x :: l' =>
      match cell_compare v x with
      | Lt => v :: l
      | Eq => l
      | Gt => x :: insert_sorted v l'
      end
  end.

(** [categories_]: the distinct values of a column, sorted. *)
Definition categories_of (c : column) : list cell :=
  foldr insert_sorted [] (cells c).

Definition numeric_values (c : column) : result (list Q) :=
  match c with
  | FloatCol v => Ok v
  | IntCol v => Ok (inject_Z <$> v)
  | ObjCol _ => Raise (ValueError "could not convert string to float")
  end.

Definition select_columns (X : DataFrame) (cols : list string)
  : result (list column) :=
  rmapM (λ c, match df_lookup X c with
              | Some col => Ok col
              | None =>
                  Raise (ValueError "A given column is not a column of the dataframe")
              end) cols.

Definition select_row (X : DataFrame) (cols : list string) (i : nat)
  : result (list cell) :=
  rbind (select_columns X cols)
        (rmapM (λ col, match cells col !! i with
                       | Some v => Ok v
                       | None => Raise (IndexError "row out of bounds")
                       end)).

Fixpoint rzip_with {A B C} (f : A → B → result C) (l : list A) (k : list B)
  : result (list C) :=
  match l, k with
  | [], [] => Ok []
  | a :: l', b :: k' =>
      rbind (f a b) (λ c, rbind (rzip_with f l' k') (λ cs, Ok (c :: cs)))
  | _, _ => Raise (ValueError "X has a different number of features")
  end.

(** One indicator per known category. *)
Definition indicator (cats : list cell) (v : cell) : list Q :=
  (λ c, if cell_eqb v c then 1%Q else 0%Q) <$> cats.

(** [OneHotEncoder.transform] on one value: an unknown value is an error
    under [handle_unknown='error'] (the library's default) and is encoded
    like any other under ['ignore']. *)
Definition onehot_cell (hu : handle_unknown) (cats : list cell) (v : cell)
  : result (list Q) :=
  if existsb (cell_eqb v) cats then Ok (indicator cats v)
  else match hu with
       | HU_error => Raise (ValueError "Found unknown categories")
       | HU_ignore => Ok (indicator cats v)
       end.

Section Preprocessing.
Context {NP : Numpy} {SK : Sklearn}.

Inductive fitted_transformer :=
  | FittedScaler (stats : list scaler_stat)
  | FittedOneHot (hu : handle_unknown) (categories : list (list cell)).

Definition fitted_ct := list (string * fitted_transformer * list string).

Definition transformer_fit (t : transformer) (cols : list column)
  : result fitted_transformer :=
  match t with
  | StandardScaler =>
      rbind (rmapM numeric_values cols)
            (λ vs, Ok (FittedScaler (scaler_fit <$> vs)))
  | OneHotEncoder hu => Ok (FittedOneHot hu (categories_of <$> cols))
  end.

Definition scale_cell (s : scaler_stat) (v : cell) : result Q :=
  match v with
  | CNum q => Ok (scaler_apply s q)
  | CStr _ => Raise (ValueError "could not convert string to float")
  end.

Definition transformer_transform_row (f : fitted_transformer)
    (row : list cell) : result (list Q) :=
  match f with
  | FittedScaler stats => rzip_with scale_cell stats row
  | FittedOneHot hu cats =>
      rbind (rzip_with (onehot_cell hu) cats row)
            (λ blocks, Ok (concat blocks))
  end.

Definition ct_fit (ct : ColumnTransformer) (X : DataFrame)
  : result fitted_ct :=
  rmapM (λ '(name, t, cols),
           rbind (select_columns X cols)
                 (λ cs, rbind (transformer_fit t cs)
                              (λ ft, Ok (name, ft, cols)))) ct.

Definition ct_transform_row (f : fitted_ct) (X : DataFrame) (i : nat)
  : result (list Q) :=
  rbind (rmapM (λ '(_, ft, cols),
                  rbind (select_row X cols i)
                        (transformer_transform_row ft)) f)
        (λ blocks, Ok (concat blocks)).

Definition ct_transform (f : fitted_ct) (X : DataFrame) : result matrix :=
  rmapM (ct_transform_row f X) (seq 0 (nrows X)).

Definition ct_fit_transform (ct : ColumnTransformer) (X : DataFrame)
  : result (fitted_ct * matrix) :=
  rbind (ct_fit ct X)
        (λ f, rbind (ct_transform f X) (λ Xt, Ok (f, Xt))).
End Preprocessing.

(** ** The Python world *)

Abbreviation loc := positive.

Section World.
Context {NP : Numpy} {SK : Sklearn}.

(** Objects have identity: a variable holds a [loc], and a method that
    fits an estimator updates the object stored there. *)
Inductive pyobj :=
  | OColumnTransformer (ct : ColumnTransformer) (fitted : option fitted_ct)
  | OClassifier (spec : classifier) (fitted : option fitted_model)
  | OPipeline (steps : list (string * loc)).

(** The library calls a run makes, in order. *)
Inductive call :=
  | Call_fit_transform (self : loc) (X : DataFrame)
  | Call_transform (self : loc) (X : DataFrame)
  | Call_fit_resample (random_state : Z) (X : matrix) (y : column)
  | Call_fit (self : loc) (X : matrix) (y : column)
  | Call_predict (self : loc) (X : matrix)
  | Call_predict_proba (self : loc) (X : matrix)
  | Call_dump (value : loc) (filename : string).

(** What [joblib.dump] writes: the object with everything it references,
    by value. *)
Inductive pickled_estimator :=
  | PkColumnTransformer (ct : ColumnTransformer) (fitted : option fitted_ct)
  | PkClassifier (spec : classifier) (fitted : option fitted_model).

Inductive pickled :=
  | PkEstimator (e : pickled_estimator)
  | PkPipeline (steps : list (string * pickled_estimator)).

Record world := World {
  heap : gmap loc pyobj;
  np_random : rng_state;
  stdout : list string;
  files : gmap string pickled;
  calls : list call;
}.

Definition M (A : Type) : Type := world → world * result A.

#[export] Instance M_ret : MRet M := λ A a w, (w, Ok a).
#[export] Instance M_bind : MBind M := λ A B k m w,
  match m w with
  | (w', inl e) => (w', inl e)
  | (w', inr a) => k a w'
  end.

Definition raise {A} (e : exn) : M A := λ w, (w, Raise e).
Definition lift {A} (r : result A) : M A := λ w, (w, r).

Definition print (line : string) : M unit := λ w,
  (World (heap w) (np_random w) (stdout w ++ [line]) (files w) (calls w),
   Ok ()).

Definition log (c : call) : M unit := λ w,
  (World (heap w) (np_random w) (stdout w) (files w) (calls w ++ [c]),
   Ok ()).

(** Object creation: a location the store does not use yet. *)
Definition new (o : pyobj) : M loc := λ w,
  let l := fresh (dom (heap w)) in
  (World (<[l:=o]> (heap w)) (np_random w) (stdout w) (files w) (calls w),
   Ok l).

Definition deref (l : loc) : M pyobj := λ w,
  match heap w !! l with
  | Some o => (w, Ok o)
  | None => (w, Raise (Unmodelled "dangling reference"))
  end.

Definition store (l : loc) (o : pyobj) : M unit := λ w,
  (World (<[l:=o]> (heap w)) (np_random w) (stdout w) (files w) (calls w),
   Ok ()).

(** A draw from numpy's global generator. *)
Definition draw {A} (f : rng_state → A * rng_state) : M A := λ w,
  let '(a, s) := f (np_random w) in
  (World (heap w) s (stdout w) (files w) (calls w), Ok a).

Definition write_file (filename : string) (p : pickled) : M unit := λ w,
  (World (heap w) (np_random w) (stdout w) (<[filename:=p]> (files w))
         (calls w),
   Ok ()).
End World.

(** ** Methods of the library objects *)

Section Methods.
Context {NP : Numpy} {SK : Sklearn}.

(** [ColumnTransformer.fit_transform(X)]: fits in place, returns the
    transformed matrix. *)
Definition fit_transform (self : loc) (X : DataFrame) : M matrix :=
  o ← deref self;
  match o with
  | OColumnTransformer ct _ =>
      log (Call_fit_transform self X);;
      '(f, Xt) ← lift (ct_fit_transform ct X);
      store self (OColumnTransformer ct (Some f));;
      mret Xt
  | OClassifier _ _ => raise (AttributeError "fit_transform")
  | OPipeline _ => raise (Unmodelled "Pipeline.fit_transform")
  end.

(** [ColumnTransformer.transform(X)] *)
Definition transform (self : loc) (X : DataFrame) : M matrix :=
  o ← deref self;
  match o with
  | OColumnTransformer ct fitted =>
      log (Call_transform self X);;
      match fitted with
      | Some f => lift (ct_transform f X)
      | None => raise (NotFittedError "ColumnTransformer")
      end
  | OClassifier _ _ => raise (AttributeError "transform")
  | OPipeline _ => raise (Unmodelled "Pipeline.transform")
  end.

(** [estimator.fit(X, y)]: fits in place and returns [self]. *)
Definition fit (self : loc) (X : matrix) (y : column) : M loc :=
  o ← deref self;
  match o with
  | OClassifier spec _ =>
      log (Call_fit self X y);;
      fm ← lift (estimator_fit spec X y);
      store self (OClassifier spec (Some fm));;
      mret self
  | OColumnTransformer _ _ => raise (Unmodelled "ColumnTransformer.fit")
  | OPipeline _ => raise (Unmodelled "Pipeline.fit")
  end.

Definition predict (self : loc) (X : matrix) : M (list Z) :=
  o ← deref self;
  match o with
  | OClassifier _ fitted =>
      log (Call_predict self X);;
      match fitted with
      | Some fm => lift (estimator_predict fm X)
      | None => raise (NotFittedError "classifier")
      end
  | OColumnTransformer _ _ => raise (AttributeError "predict")
  | OPipeline _ => raise (Unmodelled "Pipeline.predict on a step")
  end.

Definition predict_proba (self : loc) (X : matrix) : M matrix :=
  o ← deref self;
  match o with
  | OClassifier _ fitted =>
      log (Call_predict_proba self X);;
      match fitted with
      | Some fm => lift (estimator_predict_proba fm X)
      | None => raise (NotFittedError "classifier")
      end
  | OColumnTransformer _ _ => raise (AttributeError "predict_proba")
  | OPipeline _ => raise (Unmodelled "Pipeline.predict_proba on a step")
  end.

(** [Pipeline(steps)]: the constructor keeps the list it is given; the
    step objects are referenced, not copied, and nothing is fitted. *)
Definition Pipeline (steps : list (string * loc)) : M loc :=
  new (OPipeline steps).

Fixpoint assoc {A} (key : string) (l : list (string * A)) : option A :=
  match l with
  | [] => None
  | (k, a) :: l' => if String.eqb k key then Some a else assoc key l'
  end.

(** [pipe.named_steps[key]] *)
Definition named_steps (pipe : loc) (key : string) : M loc :=
  o ← deref pipe;
  match o with
  | OPipeline steps =>
      match assoc key steps with
      | Some l => mret l
      | None => raise (KeyError key)
      end
  | _ => raise (AttributeError "named_steps")
  end.

(** [a[:, j]] *)
Definition column_of (j : nat) (a : matrix) : result (list Q) :=
  rmapM (λ row, match row !! j with
                | Some x => Ok x
                | None => Raise (IndexError "index is out of bounds for axis 1")
                end) a.

Definition pickle_estimator (h : gmap loc pyobj) (l : loc)
  : result pickled_estimator :=
  match h !! l with
  | Some (OColumnTransformer ct f) => Ok (PkColumnTransformer ct f)
  | Some (OClassifier spec f) => Ok (PkClassifier spec f)
  | Some (OPipeline _) => Raise (Unmodelled "nested pipeline")
  | None => Raise (Unmodelled "dangling reference")
  end.

Definition pickle (h : gmap loc pyobj) (l : loc) : result pickled :=
  match h !! l with
  | Some (OPipeline steps) =>
      rbind (rmapM (λ '(k, s), rbind (pickle_estimator h s)
                                     (λ e, Ok (k, e))) steps)
            (λ ps, Ok (PkPipeline ps))
  | _ => rbind (pickle_estimator h l) (λ e, Ok (PkEstimator e))
  end.

(** [joblib.dump(value, filename)]: replaces whatever the file held. *)
Definition joblib_dump (value : loc) (filename : string) : M unit :=
  log (Call_dump value filename);;
  p ← (λ w, (w, pickle (heap w) value));
  write_file filename p.

(** [round] to the nearest integer, halves to even, and numpy's
    [a.round(decimals)] on one value. *)
Definition rint (x : Q) : Z :=
  let n := Qnum x in
  let d := Z.pos (Qden x) in
  let q := (n / d)%Z in
  match (2 * (n mod d) ?= d)%Z with
  | Lt => q
  | Gt => (q + 1)%Z
  | Eq => if Z.even q then q else (q + 1)%Z
  end.

Definition np_round (decimals : nat) (x : Q) : Q :=
  let scale := (10 ^ Z.of_nat decimals)%Z in
  Qmake (rint (x * inject_Z scale)) (Z.to_pos scale).

(** [pd.DataFrame({...})] from columns of one length. *)
Definition pd_DataFrame (data : list (string * column)) : result DataFrame :=
  match data with
  | [] => Ok []
  | (_, c) :: rest =>
      if forallb (λ kc, Nat.eqb (col_length (snd kc)) (col_length c)) rest
      then Ok data
      else Raise (ValueError "All arrays must be of the same length")
  end.
End Methods.

(** ** The script

    The two optional imports at the top of the module leave two globals:
    [XGB_AVAILABLE] and [SMOTE] (the class, or [None]). *)

Inductive smote_class := imblearn_SMOTE.

Record module_globals := {
  XGB_AVAILABLE : bool;
  SMOTE : option smote_class;
}.

Section Script.
Context {NP : Numpy} {SK : Sklearn}.
Variable G : module_globals.

(** [np.random.seed(s)] *)
Definition np_random_seed_call (s : Z) : M unit := λ w,
  (World (heap w) (np_random_seed s) (stdout w) (files w) (calls w), Ok ()).

(** 1. Generate synthetic dataset *)
Definition generate_data (n : nat) : M DataFrame :=
  np_random_seed_call 42;;
  amount ← draw (np_random_exponential (200 # 1) n);
  payment_method ← draw (np_random_choice ["CARD"; "UPI"; "NETBANKING"] n);
  device_type ← draw (np_random_choice ["MOBILE"; "DESKTOP"] n);
  hour ← draw (np_random_randint 0 24 n);
  is_fraud ←
    draw (np_random_choice_p [0; 1]%Z [(95 # 100)%Q; (5 # 100)%Q] n);
  lift (pd_DataFrame
          [("amount", FloatCol (np_round 2 <$> amount));
           ("payment_method", ObjCol payment_method);
           ("device_type", ObjCol device_type);
           ("hour", IntCol hour);
           ("is_fraud", IntCol is_fraud)]).

(** 2. Preprocessor builder *)
Definition build_preprocessor (X : DataFrame) : M loc :=
  let num := select_dtypes_include_number X in
  let cat := select_dtypes_exclude_number X in
  new (OColumnTransformer
         [("num", StandardScaler, num);
          ("cat", OneHotEncoder HU_ignore, cat)]
         None).

(** 3. Get model *)
Definition get_model (name : string) : M loc :=
  if String.eqb name "xgb" && XGB_AVAILABLE G
  then new (OClassifier (XGBClassifier 300 6 (1 # 10) (-1)) None)
  else new (OClassifier (RandomForestClassifier 300 42) None).

(** 4. Train *)
Definition train (X : DataFrame) (y : column) (preprocessor model : loc)
  : M loc :=
  X_processed ← fit_transform preprocessor X;
  '(X_processed, y) ←
    match SMOTE G with
    | Some imblearn_SMOTE =>
        log (Call_fit_resample 42 X_processed y);;
        lift (smote_fit_resample 42 X_processed y)
    | None => mret (X_processed, y)
    end;
  clf ← fit model X_processed y;
  pipe ← Pipeline [("prep", preprocessor); ("clf", model)];
  mret pipe.

(** 5. Evaluate: the inference part, then the two reports. *)
Definition evaluate_scores (pipe : loc) (X_test : DataFrame)
  : M (list Z * list Q) :=
  prep ← named_steps pipe "prep";
  X_proc ← transform prep X_test;
  model ← named_steps pipe "clf";
  y_pred ← predict model X_proc;
  proba ← predict_proba model X_proc;
  y_prob ← lift (column_of 1 proba);
  mret (y_pred, y_prob).

Definition evaluate (pipe : loc) (X_test : DataFrame) (y_test : column)
  : M unit :=
  '(y_pred, y_prob) ← evaluate_scores pipe X_test;
  report ← lift (classification_report y_test y_pred);
  print report;;
  auc ← lift (roc_auc_score y_test y_prob);
  print ("ROC AUC: " ++ float_str auc).

(** [train_test_split(X, y, stratify=y, test_size=0.25)] *)
Definition train_test_split_call (X : DataFrame) (y : column)
    (stratify : option column) (test_size : Q)
  : M (DataFrame * DataFrame * column * column) := λ w,
  let '(r, s) := train_test_split X y stratify test_size (np_random w) in
  (World (heap w) s (stdout w) (files w) (calls w), r).

(** 6. Main runner *)
Definition main : M unit :=
  df ← generate_data 1000;
  X ← lift (df_drop df ["is_fraud"]);
  y ← lift (df_getitem df "is_fraud");
  '(X_train, X_test, y_train, y_test) ←
    train_test_split_call X y (Some y) (25 # 100);
  print "✔ Building pipeline";;
  preprocessor ← build_preprocessor X_train;
  model ← get_model "rf";
  print "✔ Training model";;
  pipe ← train X_train y_train preprocessor model;
  print "✔ Evaluating model";;
  evaluate pipe X_test y_test;;
  print "✔ Saving model";;
  joblib_dump pipe "fraud_model.pkl".
End Script.

(** ** Running the file as a script

    The module body: the imports, the two guarded optional imports, the
    function definitions, and the guard on the last two lines. *)

Inductive pyval :=
  | VStr (s : string)
  | VBool (b : bool)
  | VNone
  | VModule (name : string)
  | VClass (name : string)
  | VFunction (name : string)
  | VBuiltin (name : string).

(** What the interpreter puts in the namespace of the file it runs. *)
Definition script_namespace (file : string) : gmap string pyval :=
  list_to_map
    [("__name__", VStr "__main__"); ("__doc__", VNone);
     ("__package__", VNone); ("__spec__", VNone);
     ("__loader__", VBuiltin "SourceFileLoader");
     ("__builtins__", VModule "builtins"); ("__file__", VStr file)].

Definition builtin_names : list string :=
  ["abs"; "aiter"; "all"; "anext"; "any"; "ascii"; "bin"; "bool";
   "breakpoint"; "bytearray"; "bytes"; "callable"; "chr"; "classmethod";
   "compile"; "complex"; "copyright"; "credits"; "delattr"; "dict"; "dir";
   "divmod"; "enumerate"; "eval"; "exec"; "exit"; "filter"; "float";
   "format"; "frozenset"; "getattr"; "globals"; "hasattr"; "hash"; "help";
   "hex"; "id"; "input"; "int"; "isinstance"; "issubclass"; "iter"; "len";
   "license"; "list"; "locals"; "map"; "max"; "memoryview"; "min"; "next";
   "object"; "oct"; "open"; "ord"; "pow"; "print"; "property"; "quit";
   "range"; "repr"; "reversed"; "round"; "set"; "setattr"; "slice";
   "sorted"; "staticmethod"; "str"; "sum"; "super"; "tuple"; "type";
   "vars"; "zip"; "__import__"; "__build_class__"; "__debug__"; "__doc__";
   "__loader__"; "__name__"; "__package__"; "__spec__"; "Ellipsis";
   "NotImplemented"; "BaseException"; "Exception"; "ArithmeticError";
   "AssertionError"; "AttributeError"; "EOFError"; "ImportError";
   "IndexError"; "KeyError"; "KeyboardInterrupt"; "LookupError";
   "MemoryError"; "ModuleNotFoundError"; "NameError";
   "NotImplementedError"; "OSError"; "OverflowError"; "RuntimeError";
   "StopIteration"; "SyntaxError"; "SystemExit"; "TypeError";
   "UnboundLocalError"; "ValueError"; "ZeroDivisionError"; "Warning";
   "UserWarning"; "DeprecationWarning"; "FutureWarning"].

Definition py_eq (a b : pyval) : bool :=
  match a, b with
  | VStr s, VStr t => String.eqb s t
  | VBool x, VBool y => Bool.eqb x y
  | VNone, VNone => true
  | VModule s, VModule t | VClass s, VClass t
  | VFunction s, VFunction t | VBuiltin s, VBuiltin t => String.eqb s t
  | _, _ => false
  end.

(** The unconditional imports of lines 1-10: module, names bound. *)
Definition required_imports : list (string * list (string * pyval)) :=
  [("joblib", [("joblib", VModule "joblib")]);
   ("warnings", [("warnings", VModule "warnings")]);
   ("numpy", [("np", VModule "numpy")]);
   ("pandas", [("pd", VModule "pandas")]);
   ("sklearn.compose", [("ColumnTransformer", VClass "ColumnTransformer")]);
   ("sklearn.preprocessing",
    [("OneHotEncoder", VClass "OneHotEncoder");
     ("StandardScaler", VClass "StandardScaler")]);
   ("sklearn.pipeline", [("Pipeline", VClass "Pipeline")]);
   ("sklearn.model_selection",
    [("train_test_split", VFunction "train_test_split")]);
   ("sklearn.metrics",
    [("classification_report", VFunction "classification_report");
     ("roc_auc_score", VFunction "roc_auc_score")]);
   ("sklearn.ensemble",
    [("RandomForestClassifier", VClass "RandomForestClassifier")])].

Definition function_defs : list string :=
  ["generate_data"; "build_preprocessor"; "get_model"; "train"; "evaluate";
   "main"].

Definition bind_all (bs : list (string * pyval)) (ns : gmap string pyval)
  : gmap string pyval :=
  foldl (λ ns b, <[b.1:=b.2]> ns) ns bs.

Section Module.
Context {NP : Numpy} {SK : Sklearn}.
(** Which packages the environment can import. *)
Variable installed : string → bool.

Fixpoint exec_imports (l : list (string * list (string * pyval)))
    (ns : gmap string pyval) : M (gmap string pyval) :=
  match l with
  | [] => mret ns
  | (module, names) :: l' =>
      if installed module then exec_imports l' (bind_all names ns)
      else raise (ModuleNotFoundError module)
  end.

(** [try: from m import C ... except ImportError: ...] *)
Definition xgb_guard (ns : gmap string pyval) : gmap string pyval :=
  if installed "xgboost"
  then <["XGB_AVAILABLE":=VBool true]>
         (<["XGBClassifier":=VClass "XGBClassifier"]> ns)
  else <["XGB_AVAILABLE":=VBool false]> ns.

Definition smote_guard (ns : gmap string pyval) : gmap string pyval :=
  if installed "imblearn.over_sampling"
  then <["SMOTE":=VClass "SMOTE"]> ns
  else <["SMOTE":=VNone]> ns.

(** The globals the functions read, as the module body left them. *)
Definition globals_of (ns : gmap string pyval) : module_globals :=
  {| XGB_AVAILABLE :=
       match ns !! "XGB_AVAILABLE" with
       | Some (VBool b) => b
       | _ => false
       end;
     SMOTE :=
       match ns !! "SMOTE" with
       | Some (VClass _) => Some imblearn_SMOTE
       | _ => None
       end |}.

(** Name lookup at module level: globals, then builtins. *)
Definition load_name (ns : gmap string pyval) (name : string) : M pyval :=
  match ns !! name with
  | Some v => mret v
  | None =>
      if existsb (String.eqb name) builtin_names
      then mret (VBuiltin name)
      else raise (NameError name)
  end.

Definition run_script (file : string) : M unit :=
  ns ← exec_imports required_imports (script_namespace file);
  let ns := xgb_guard ns in
  let ns := smote_guard ns in
  (* warnings.filterwarnings("ignore") *)
  let ns := bind_all ((λ f, (f, VFunction f)) <$> function_defs) ns in
  (* if _name_ == "_main_": main() *)
  v ← load_name ns "_name_";
  if py_eq v (VStr "_main_") then main (globals_of ns) else mret ().
End Module.

(** ** The composed pipeline's own inference interface

    [Pipeline.predict(X)] and [Pipeline.predict_proba(X)] as scikit-learn
    documents them: the data goes through [transform] of every step but
    the last, and the last step answers.  The script never calls them;
    [evaluate] is compared with them below. *)

Section PipelineInterface.
Context {NP : Numpy} {SK : Sklearn}.

Definition Pipeline_predict (pipe : loc) (X : DataFrame) : M (list Z) :=
  o ← deref pipe;
  match o with
  | OPipeline [(_, t); (_, final)] =>
      Xt ← transform t X;
      predict final Xt
  | OPipeline _ => raise (Unmodelled "pipeline of another shape")
  | _ => raise (AttributeError "predict")
  end.

Definition Pipeline_predict_proba (pipe : loc) (X : DataFrame) : M matrix :=
  o ← deref pipe;
  match o with
  | OPipeline [(_, t); (_, final)] =>
      Xt ← transform t X;
      predict_proba final Xt
  | OPipeline _ => raise (Unmodelled "pipeline of another shape")
  | _ => raise (AttributeError "predict_proba")
  end.

(** The two answers [evaluate] needs, obtained through the pipeline. *)
Definition pipeline_scores (pipe : loc) (X : DataFrame)
  : M (list Z * list Q) :=
  y_pred ← Pipeline_predict pipe X;
  proba ← Pipeline_predict_proba pipe X;
  y_prob ← lift (column_of 1 proba);
  mret (y_pred, y_prob).

(** [joblib.load(file).predict(probe)] for a stored two-stage pipeline. *)
Definition artifact_predict (a : pickled) (probe : DataFrame)
  : result (list Z) :=
  match a with
  | PkPipeline [(_, PkColumnTransformer _ (Some f));
                (_, PkClassifier _ (Some fm))] =>
      rbind (ct_transform f probe) (estimator_predict fm)
  | _ => Raise (Unmodelled "artifact of another shape")
  end.
End PipelineInterface.

(** ** A small instance of the interfaces

    Used to run the script on concrete data: a counter as generator state,
    strictly positive exponential draws between 0.00001 and 0.0005 times
    the scale, cyclic choices, a head/tail split, an identity scaler, a
    constant classifier and a rebalancer that repeats the first row. *)

Definition numpy_cyclic : Numpy := {|
  rng_state := nat;
  np_random_seed := Z.to_nat;
  np_random_exponential scale n s :=
    ((λ i, scale * (Z.of_nat (1 + i mod 50) # 100000))%Q <$> seq s n, s + n);
  np_random_choice a n s :=
    ((λ i, nth (i mod length a) a "") <$> seq s n, s + n);
  np_random_randint lo hi n s :=
    ((λ i, lo + Z.of_nat i mod (hi - lo))%Z <$> seq s n, s + n);
  np_random_choice_p a p n s :=
    ((λ i, nth (i mod length a) a 0%Z) <$> seq s n, s + n);
|}.

Definition col_take (k : nat) (c : column) : column :=
  match c with
  | FloatCol v => FloatCol (take k v)
  | IntCol v => IntCol (take k v)
  | ObjCol v => ObjCol (take k v)
  end.

Definition col_drop (k : nat) (c : column) : column :=
  match c with
  | FloatCol v => FloatCol (drop k v)
  | IntCol v => IntCol (drop k v)
  | ObjCol v => ObjCol (drop k v)
  end.

Definition col_app (c d : column) : column :=
  match c, d with
  | FloatCol v, FloatCol u => FloatCol (v ++ u)%list
  | IntCol v, IntCol u => IntCol (v ++ u)%list
  | ObjCol v, ObjCol u => ObjCol (v ++ u)%list
  | _, _ => c
  end.

Definition head_tail_split (X : DataFrame) (y : column)
    (stratify : option column) (test_size : Q) (s : nat)
  : result (DataFrame * DataFrame * column * column) * nat :=
  let k :=
    nrows X - Z.to_nat (rint (inject_Z (Z.of_nat (nrows X)) * test_size)) in
  (Ok ((λ kc, (kc.1, col_take k kc.2)) <$> X,
       (λ kc, (kc.1, col_drop k kc.2)) <$> X,
       col_take k y, col_drop k y),
   S s).

Definition sklearn_plain : @Sklearn numpy_cyclic :=
  @Build_Sklearn numpy_cyclic
    unit (λ _, ()) (λ _ q, q)
    Z
    (λ spec X y, Ok (Z.of_nat (length X)))
    (λ fm X, Ok ((λ _, 0%Z) <$> X))
    (λ fm X, Ok ((λ _, [(3 # 4)%Q; (1 # 4)%Q]) <$> X))
    (λ seed X y, Ok ((X ++ take 1 X)%list, col_app y (col_take 1 y)))
    head_tail_split
    (λ y_true y_pred, Ok "precision recall f1-score support")
    (λ y_true y_score, Ok (1 # 2)%Q)
    (λ q, "0.5").

Definition world0 : @world numpy_cyclic sklearn_plain :=
  World ∅ (0 : @rng_state numpy_cyclic) [] ∅ [].

Definition G_none : module_globals :=
  {| XGB_AVAILABLE := false; SMOTE := None |}.

Definition G_all : module_globals :=
  {| XGB_AVAILABLE := true; SMOTE := Some imblearn_SMOTE |}.

(** * What a call computes, as functions of the library results

    These functions follow the calls of [train], [evaluate],
    [generate_data] and [main] through the library results alone, without
    the store; the lemmas below show that the stateful definitions agree
    with them. *)

Section Outcomes.
Context {NP : Numpy} {SK : Sklearn}.

Implicit Types (w : world) (G : module_globals) (X : DataFrame)
  (y : column) (p m pipe : loc).

(** What a call that builds the tree ensemble leaves behind: a fresh,
    unfitted [RandomForestClassifier(n_estimators=300, random_state=42)]
    and nothing else touched. *)
Definition returns_random_forest (c : M loc) w : Prop :=
  ∃ l, c w =
       (World (<[l:=OClassifier (RandomForestClassifier 300 42) None]>
                 (heap w))
              (np_random w) (stdout w) (files w) (calls w), Ok l)
       ∧ (l ∉ dom (heap w)).

(** The rebalancing branch of [train], as a function of the globals. *)
Definition rebalance G (Xt : matrix) y : result (matrix * column) :=
  match SMOTE G with
  | Some imblearn_SMOTE => smote_fit_resample 42 Xt y
  | None => Ok (Xt, y)
  end.

Definition rebalance_calls G (Xt : matrix) y : list call :=
  match SMOTE G with
  | Some imblearn_SMOTE => [Call_fit_resample 42 Xt y]
  | None => []
  end.

(** The library results a call of [train] goes through, in order. *)
Definition train_outcome G (ct : ColumnTransformer) (spec : classifier)
    X y : result (fitted_ct * matrix * (matrix * column) * fitted_model) :=
  rbind (ct_fit_transform ct X) (λ '(f, Xt),
  rbind (rebalance G Xt y) (λ '(Xr, yr),
  rbind (estimator_fit spec Xr yr) (λ fm,
  Ok (f, Xt, (Xr, yr), fm)))).

(** The calls that fit an estimator. *)
Definition is_fit_call (c : call) : bool :=
  match c with
  | Call_fit_transform _ _ | Call_fit _ _ _ => true
  | _ => false
  end.

(** The library results a call of [evaluate] goes through, in order. *)
Definition scores_outcome (f : fitted_ct) (fm : fitted_model) X_test
  : result (list Z * list Q) :=
  rbind (ct_transform f X_test) (λ Xp,
  rbind (estimator_predict fm Xp) (λ y_pred,
  rbind (estimator_predict_proba fm Xp) (λ proba,
  rbind (column_of 1 proba) (λ y_prob,
  Ok (y_pred, y_prob))))).

Definition evaluate_outcome (f : fitted_ct) (fm : fitted_model)
    X_test y_test : result (string * Q) :=
  rbind (scores_outcome f fm X_test) (λ '(y_pred, y_prob),
  rbind (classification_report y_test y_pred) (λ report,
  rbind (roc_auc_score y_test y_prob) (λ auc,
  Ok (report, auc)))).

Definition generate_data_pure (n : nat) : result DataFrame * rng_state :=
  let s := np_random_seed 42 in
  let '(amount, s) := np_random_exponential (200 # 1) n s in
  let '(payment_method, s) :=
    np_random_choice ["CARD"; "UPI"; "NETBANKING"] n s in
  let '(device_type, s) := np_random_choice ["MOBILE"; "DESKTOP"] n s in
  let '(hour, s) := np_random_randint 0 24 n s in
  let '(is_fraud, s) :=
    np_random_choice_p [0; 1]%Z [(95 # 100)%Q; (5 # 100)%Q] n s in
  (pd_DataFrame
     [("amount", FloatCol (np_round 2 <$> amount));
      ("payment_method", ObjCol payment_method);
      ("device_type", ObjCol device_type);
      ("hour", IntCol hour);
      ("is_fraud", IntCol is_fraud)],
   s).

(** The plan [build_preprocessor] writes for a table. *)
Definition plan_of X : ColumnTransformer :=
  [("num", StandardScaler, select_dtypes_include_number X);
   ("cat", OneHotEncoder HU_ignore, select_dtypes_exclude_number X)].

(** What a run of [main] computes, as a function of the globals alone:
    the stored pipeline, the two reported texts and the generator state
    it ends in. *)
Definition main_outcome G : result (pickled * (string * Q) * rng_state) :=
  let '(rdf, s) := generate_data_pure 1000 in
  rbind rdf (λ df,
  rbind (df_drop df ["is_fraud"]) (λ X,
  rbind (df_getitem df "is_fraud") (λ y,
  let '(rsplit, s') := train_test_split X y (Some y) (25 # 100) s in
  rbind rsplit (λ '(X_train, X_test, y_train, y_test),
  let spec := RandomForestClassifier 300 42 in
  rbind (train_outcome G (plan_of X_train) spec X_train y_train)
        (λ '(f, _, _, fm),
  rbind (evaluate_outcome f fm X_test y_test) (λ texts,
  Ok (PkPipeline [("prep", PkColumnTransformer (plan_of X_train) (Some f));
                  ("clf", PkClassifier spec (Some fm))],
      texts, s'))))))).

Definition console_of (report : string) (auc : Q) : list string :=
  ["✔ Building pipeline"; "✔ Training model"; "✔ Evaluating model";
   report; "ROC AUC: " ++ float_str auc; "✔ Saving model"].

(** A table the plan written for [X] can be applied to: it has the
    columns the plan names, numeric where the plan scales, each as long
    as the table. *)
Definition conforms (X X' : DataFrame) : bool :=
  forallb (λ c, match df_lookup X' c with
                | Some col =>
                    is_number col && Nat.eqb (col_length col) (nrows X')
                | None => false
                end) (select_dtypes_include_number X)
  && forallb (λ c, match df_lookup X' c with
                   | Some col => Nat.eqb (col_length col) (nrows X')
                   | None => false
                   end) (select_dtypes_exclude_number X).

(** Number of categories observed in column [c] of [X]. *)
Definition ncats (X : DataFrame) (c : string) : nat :=
  match df_lookup X c with
  | Some col => length (categories_of col)
  | None => 0
  end.

Definition cell_at (X' : DataFrame) (i : nat) (c : string) (v : cell)
  : Prop :=
  ∃ col, df_lookup X' c = Some col ∧ cells col !! i = Some v.

End Outcomes.

(** ** Concrete tables and objects *)

(** A three-row table to train on, and a two-row table whose first row
    carries a payment method the first never held. *)
Definition shop : DataFrame :=
  [("amount", FloatCol [12.5; 3.2; 40]%Q);
   ("payment_method", ObjCol ["CARD"; "UPI"; "CARD"]);
   ("hour", IntCol [9; 23; 14]%Z)].

Definition shop_labels : column := IntCol [0; 1; 0]%Z.

Definition shop_new : DataFrame :=
  [("amount", FloatCol [7; 8.25]%Q);
   ("payment_method", ObjCol ["NETBANKING"; "CARD"]);
   ("hour", IntCol [1; 2]%Z)].

(** A world holding an unfitted preprocessor at 1 and an unfitted
    classifier at 2. *)
Definition world_objs : @world numpy_cyclic sklearn_plain :=
  World (<[2%positive:=OClassifier (RandomForestClassifier 300 42) None]>
           (<[1%positive:=OColumnTransformer (plan_of shop) None]> ∅))
        (0 : @rng_state numpy_cyclic) [] ∅ [].

Definition shop_fit : result (fitted_ct * matrix) :=
  @ct_fit_transform numpy_cyclic sklearn_plain (plan_of shop) shop.

Definition shop_f : @fitted_ct numpy_cyclic sklearn_plain :=
  match shop_fit with
  | inr (f, _) => f
  | inl _ => []
  end.

Definition shop_Xt : matrix :=
  match shop_fit with
  | inr (_, Xt) => Xt
  | inl _ => []
  end.

(** What the rebalancer of the small instance returns on [shop]. *)
Definition shop_Xr : matrix := (shop_Xt ++ take 1 shop_Xt)%list.

Definition shop_yr : column := col_app shop_labels (col_take 1 shop_labels).

(** ** A second instance: estimators that look at the labels

    The classifier remembers how many classes it was fitted on and answers
    [predict_proba] with that many columns; the rebalancer and the ROC AUC
    refuse a single class, and the rebalancer refuses fewer than six rows
    (its five neighbours), as the libraries do.  The generator variant
    draws no fraud at all. *)

Definition numpy_no_fraud : Numpy := {|
  rng_state := nat;
  np_random_seed := Z.to_nat;
  np_random_exponential scale n s :=
    ((λ i, scale * (Z.of_nat (1 + i mod 50) # 100000))%Q <$> seq s n, s + n);
  np_random_choice a n s :=
    ((λ i, nth (i mod length a) a "") <$> seq s n, s + n);
  np_random_randint lo hi n s :=
    ((λ i, lo + Z.of_nat i mod (hi - lo))%Z <$> seq s n, s + n);
  np_random_choice_p a p n s := (repeat (hd 0%Z a) n, s + n);
|}.

Definition count_classes (y : column) : nat := length (categories_of y).

Definition head_tail (X : DataFrame) (y : column) (test_size : Q)
  : DataFrame * DataFrame * column * column :=
  let k :=
    nrows X - Z.to_nat (rint (inject_Z (Z.of_nat (nrows X)) * test_size)) in
  ((λ kc, (kc.1, col_take k kc.2)) <$> X,
   (λ kc, (kc.1, col_drop k kc.2)) <$> X,
   col_take k y, col_drop k y).

Definition sklearn_counting (NP : Numpy) : @Sklearn NP :=
  @Build_Sklearn NP
    unit (λ _, ()) (λ _ q, q)
    nat
    (λ spec X y, Ok (count_classes y))
    (λ fm X, Ok ((λ _, 0%Z) <$> X))
    (λ fm X, Ok ((λ _, repeat (1 # Pos.of_nat fm)%Q fm) <$> X))
    (λ seed X y,
       if Nat.ltb (count_classes y) 2
       then Raise (ValueError "The target 'y' needs to have more than 1 class")
       else if Nat.ltb (length X) 6
            then Raise (ValueError "Expected n_neighbors <= n_samples_fit")
            else Ok (X, y))
    (λ X y stratify test_size s, (Ok (head_tail X y test_size), s))
    (λ y_true y_pred, Ok "precision recall f1-score support")
    (λ y_true y_score,
       if Nat.ltb (count_classes y_true) 2
       then Raise (ValueError "Only one class present in y_true")
       else Ok (1 # 2)%Q)
    (λ q, "0.5").

Definition world_no_fraud
  : @world numpy_no_fraud (sklearn_counting numpy_no_fraud) :=
  World ∅ (0 : @rng_state numpy_no_fraud) [] ∅ [].

(** [world_objs] again, for the counting estimators. *)
Definition world_objs_counting
  : @world numpy_cyclic (sklearn_counting numpy_cyclic) :=
  World (<[2%positive:=OClassifier (RandomForestClassifier 300 42) None]>
           (<[1%positive:=OColumnTransformer (plan_of shop) None]> ∅))
        (0 : @rng_state numpy_cyclic) [] ∅ [].

(** The store after training on [shop], on both classes and on one. *)
Definition world_trained
  : @world numpy_cyclic (sklearn_counting numpy_cyclic) :=
  (train G_none shop shop_labels 1%positive 2%positive
     world_objs_counting).1.

Definition world_trained_one_class
  : @world numpy_cyclic (sklearn_counting numpy_cyclic) :=
  (train G_none shop (IntCol [0; 0; 0]%Z) 1%positive 2%positive
     world_objs_counting).1.

(** A pipeline whose steps carry other names. *)
Definition world_renamed_steps : @world numpy_cyclic sklearn_plain :=
  World (<[3%positive:=OPipeline [("scale", 1%positive);
                                  ("model", 2%positive)]]>
           (heap world_objs))
        (0 : @rng_state numpy_cyclic) [] ∅ [].

(** ** What a computation leaves alone *)

Section Frames.
Context {NP : Numpy} {SK : Sklearn}.

(** [c] never changes the component [proj] of the world, whether it
    returns or raises. *)
Definition preserves {A B} (proj : world → B) (c : M A) : Prop :=
  ∀ w, proj (c w).1 = proj w.

(** [c] has written no file when it raises. *)
Definition no_write_on_raise {A} (c : M A) : Prop :=
  ∀ w e, (c w).2 = Raise e → files (c w).1 = files w.


(** The first unconditional import that fails, if any. *)
Definition first_missing (installed : string → bool) : option string :=
  List.find (λ module, negb (installed module)) (required_imports.*1).
End Frames.

(** The order [categories_of] sorts by. *)
Definition cell_lt (a b : cell) : Prop := cell_compare a b = Lt.

(** Unfolds a call down to the store and the library results. *)
Ltac exec :=
  unfold evaluate, evaluate_scores, pipeline_scores, Pipeline_predict,
    Pipeline_predict_proba, named_steps, transform, predict, predict_proba,
    train, fit_transform, fit, Pipeline, joblib_dump, write_file, print,
    new, deref, store, log, lift, raise, mbind, M_bind, mret, M_ret;
  cbn.

(** * Properties *)

Section Properties.
Context {NP : Numpy} {SK : Sklearn}.

Implicit Types (w : world) (G : module_globals) (X : DataFrame)
  (y : column) (p m pipe : loc).

(** ** The monad, one step at a time *)

Lemma bind_unfold {A B} (c : M A) (k : A → M B) w :
  (c ≫= k) w =
  match c w with
  | (w', inl e) => (w', inl e)
  | (w', inr a) => k a w'
  end.
Proof. reflexivity. Qed.

Lemma bind_ok {A B} (c : M A) (k : A → M B) w w' a :
  c w = (w', Ok a) → (c ≫= k) w = k a w'.
Proof. intros E. rewrite bind_unfold, E. reflexivity. Qed.

(** ** Model selector *)

Lemma new_spec (o : pyobj) w :
  ∃ l, (l ∉ dom (heap w)) ∧
       new o w =
       (World (<[l:=o]> (heap w)) (np_random w) (stdout w) (files w)
              (calls w), Ok l).
Proof. exists (fresh (dom (heap w))). split; [apply is_fresh | reflexivity]. Qed.

Lemma get_model_not_xgb G name :
  name ≠ "xgb" →
  get_model G name = new (OClassifier (RandomForestClassifier 300 42) None).
Proof.
  intros Hne. unfold get_model.
  destruct (String.eqb_spec name "xgb") as [->|_]; [done | reflexivity].
Qed.

Lemma get_model_unavailable G name :
  XGB_AVAILABLE G = false →
  get_model G name = new (OClassifier (RandomForestClassifier 300 42) None).
Proof. intros E. unfold get_model. rewrite E, andb_false_r. reflexivity. Qed.

Lemma new_random_forest w :
  returns_random_forest
    (new (OClassifier (RandomForestClassifier 300 42) None)) w.
Proof.
  destruct (new_spec (OClassifier (RandomForestClassifier 300 42) None) w)
    as (l & Hl & E).
  exists l. split; assumption.
Qed.

(** C3. Without the boosting library, [get_model("xgb")] is the very call
    [get_model("rf")]: it returns normally a fresh unfitted random forest
    of 300 trees and seed 42, prints nothing and raises nothing. *)
Theorem C3_xgb_falls_back_to_rf G w :
  XGB_AVAILABLE G = false →
  get_model G "xgb" w = get_model G "rf" w
  ∧ returns_random_forest (get_model G "xgb") w
  ∧ returns_random_forest (get_model G "rf") w.
Proof.
  intros E. rewrite !(get_model_unavailable G _ E).
  split; [reflexivity | split; apply new_random_forest].
Qed.

(** C10. [get_model] is total over name tokens: whatever the module
    globals, any name other than "xgb" gives the random forest (300 trees,
    seed 42) without an error and without a word on the console. *)
Theorem C10_unrecognised_names_get_rf G name w :
  name ≠ "xgb" →
  returns_random_forest (get_model G name) w
  ∧ stdout (get_model G name w).1 = stdout w.
Proof.
  intros Hne. rewrite (get_model_not_xgb G name Hne).
  split; [apply new_random_forest | reflexivity].
Qed.

(** ** Trainer *)

Lemma train_runs G X y p m w ct f0 spec fm0 :
  heap w !! p = Some (OColumnTransformer ct f0) →
  heap w !! m = Some (OClassifier spec fm0) →
  match train_outcome G ct spec X y with
  | inl e => (train G X y p m w).2 = Raise e
  | inr (f, Xt, (Xr, yr), fm) =>
      ∃ pipe,
        (pipe ∉ dom (heap w)) ∧ pipe ≠ p ∧ pipe ≠ m ∧
        train G X y p m w =
        (World (<[pipe:=OPipeline [("prep", p); ("clf", m)]]>
                  (<[m:=OClassifier spec (Some fm)]>
                     (<[p:=OColumnTransformer ct (Some f)]> (heap w))))
               (np_random w) (stdout w) (files w)
               (calls w ++ [Call_fit_transform p X]
                  ++ rebalance_calls G Xt y ++ [Call_fit m Xr yr]),
         Ok pipe)
  end.
Proof.
  intros Hp Hm.
  assert (p ≠ m) as Hpm by (intros ->; congruence).
  unfold train_outcome, rebalance, rebalance_calls, train, fit_transform,
    fit, Pipeline, new, deref, store, log, lift, mbind, M_bind, mret, M_ret.
  cbn. rewrite Hp. cbn.
  destruct (ct_fit_transform ct X) as [e|[f Xt]]; cbn; [reflexivity|].
  assert (∀ (h : gmap loc pyobj) o1 o2 (l := fresh (dom (<[m:=o2]> (<[p:=o1]> h)))),
            (l ∉ dom h) ∧ l ≠ p ∧ l ≠ m) as Hfresh.
  { intros h o1 o2 l. pose proof (is_fresh (dom (<[m:=o2]> (<[p:=o1]> h)))) as Hl.
    fold l in Hl. rewrite !dom_insert_L in Hl. set_solver. }
  destruct (SMOTE G) as [[]|]; cbn.
  - destruct (smote_fit_resample 42 Xt y) as [e|[Xr yr]]; cbn;
      [reflexivity|].
    rewrite lookup_insert_ne, Hm by done. cbn.
    destruct (estimator_fit spec Xr yr) as [e|fm]; cbn; [reflexivity|].
    eexists. repeat split; [apply Hfresh..|].
    rewrite <- !app_assoc. reflexivity.
  - rewrite lookup_insert_ne, Hm by done. cbn.
    destruct (estimator_fit spec Xt y) as [e|fm]; cbn; [reflexivity|].
    eexists. repeat split; [apply Hfresh..|].
    rewrite <- !app_assoc. reflexivity.
Qed.

Lemma train_ok G X y p m w ct f0 spec fm0 f Xt Xr yr fm :
  heap w !! p = Some (OColumnTransformer ct f0) →
  heap w !! m = Some (OClassifier spec fm0) →
  ct_fit_transform ct X = Ok (f, Xt) →
  rebalance G Xt y = Ok (Xr, yr) →
  estimator_fit spec Xr yr = Ok fm →
  ∃ pipe,
    (pipe ∉ dom (heap w)) ∧ pipe ≠ p ∧ pipe ≠ m ∧
    train G X y p m w =
    (World (<[pipe:=OPipeline [("prep", p); ("clf", m)]]>
              (<[m:=OClassifier spec (Some fm)]>
                 (<[p:=OColumnTransformer ct (Some f)]> (heap w))))
           (np_random w) (stdout w) (files w)
           (calls w ++ [Call_fit_transform p X]
              ++ rebalance_calls G Xt y ++ [Call_fit m Xr yr]),
     Ok pipe).
Proof.
  intros Hp Hm E1 E2 E3.
  pose proof (train_runs G X y p m w ct f0 spec fm0 Hp Hm) as Hrun.
  unfold train_outcome in Hrun. rewrite E1 in Hrun. cbn in Hrun.
  rewrite E2 in Hrun. cbn in Hrun. rewrite E3 in Hrun. exact Hrun.
Qed.

(** C4. Given an unfitted preprocessor [p] and an unfitted classifier [m]
    on which the library calls succeed, [train] returns a new pipeline
    object whose two stages, "prep" and "clf", are the locations [p] and
    [m] themselves; after the call [p] holds the fitted preprocessor and
    [m] the fitted classifier, no other object was created or changed,
    and the whole call fitted each of them exactly once (so building the
    pipeline fitted nothing). *)
Theorem C4_pipeline_wraps_fitted_instances
    G X y p m w ct spec f Xt Xr yr fm :
  heap w !! p = Some (OColumnTransformer ct None) →
  heap w !! m = Some (OClassifier spec None) →
  ct_fit_transform ct X = Ok (f, Xt) →
  rebalance G Xt y = Ok (Xr, yr) →
  estimator_fit spec Xr yr = Ok fm →
  ∃ pipe w',
    train G X y p m w = (w', Ok pipe)
    ∧ (pipe ∉ dom (heap w))
    ∧ heap w' !! pipe = Some (OPipeline [("prep", p); ("clf", m)])
    ∧ heap w' !! p = Some (OColumnTransformer ct (Some f))
    ∧ heap w' !! m = Some (OClassifier spec (Some fm))
    ∧ (∀ l, l ≠ p → l ≠ m → l ≠ pipe → heap w' !! l = heap w !! l)
    ∧ filter is_fit_call (drop (length (calls w)) (calls w'))
      = [Call_fit_transform p X; Call_fit m Xr yr].
Proof.
  intros Hp Hm E1 E2 E3.
  destruct (train_ok G X y p m w ct None spec None f Xt Xr yr fm
              Hp Hm E1 E2 E3) as (pipe & Hfresh & Hpp & Hpm & Erun).
  assert (p ≠ m) as Hne by (intros ->; congruence).
  exists pipe. eexists. split; [exact Erun|]. cbn.
  split; [exact Hfresh|].
  split; [apply lookup_insert_eq|].
  split; [rewrite !lookup_insert_ne by done; apply lookup_insert_eq|].
  split; [rewrite lookup_insert_ne by done; apply lookup_insert_eq|].
  split; [intros l ? ? ?; rewrite !lookup_insert_ne by done; reflexivity|].
  rewrite drop_app_length. unfold rebalance_calls.
  destruct (SMOTE G) as [[]|]; reflexivity.
Qed.

(** C5. Whether the rebalancer is there decides one thing only.  Without
    it ([SMOTE is None]) [train] makes two library calls, fit-transform on
    the raw table and [fit] on the transformed matrix with the labels it
    was given, and returns normally when these two succeed.  With it, one
    call is added between them: [fit_resample] with seed 42 on the
    transformed matrix and the given labels, and the classifier is fitted
    on what it returns. *)
Theorem C5_rebalancing_is_optional
    G X y p m w ct f0 spec fm0 f Xt Xr yr fm :
  heap w !! p = Some (OColumnTransformer ct f0) →
  heap w !! m = Some (OClassifier spec fm0) →
  ct_fit_transform ct X = Ok (f, Xt) →
  rebalance G Xt y = Ok (Xr, yr) →
  estimator_fit spec Xr yr = Ok fm →
  ∃ pipe w',
    train G X y p m w = (w', Ok pipe)
    ∧ heap w' !! m = Some (OClassifier spec (Some fm))
    ∧ match SMOTE G with
      | None =>
          Xr = Xt ∧ yr = y
          ∧ calls w' =
            (calls w ++ [Call_fit_transform p X; Call_fit m Xt y])%list
      | Some imblearn_SMOTE =>
          smote_fit_resample 42 Xt y = Ok (Xr, yr)
          ∧ calls w' = (calls w ++ [Call_fit_transform p X;
                                    Call_fit_resample 42 Xt y;
                                    Call_fit m Xr yr])%list
      end.
Proof.
  intros Hp Hm E1 E2 E3.
  destruct (train_ok G X y p m w ct f0 spec fm0 f Xt Xr yr fm
              Hp Hm E1 E2 E3) as (pipe & Hfresh & Hpp & Hpm & Erun).
  exists pipe. eexists. split; [exact Erun|]. cbn.
  split; [rewrite lookup_insert_ne by done; apply lookup_insert_eq|].
  unfold rebalance, rebalance_calls in *.
  destruct (SMOTE G) as [[]|].
  - split; [exact E2 | reflexivity].
  - injection E2 as <- <-. repeat split; reflexivity.
Qed.

(** ** Evaluator *)

Lemma bind_inv_ok {A B} (c : M A) (k : A → M B) w w' b :
  (c ≫= k) w = (w', Ok b) →
  ∃ w1 a, c w = (w1, Ok a) ∧ k a w1 = (w', Ok b).
Proof.
  rewrite bind_unfold. destruct (c w) as [w1 [e|a]]; [discriminate|].
  intros E. exists w1, a. split; [reflexivity | exact E].
Qed.

Lemma train_returns_pipeline G X y p m w w' pipe :
  train G X y p m w = (w', Ok pipe) →
  heap w' !! pipe = Some (OPipeline [("prep", p); ("clf", m)]).
Proof.
  unfold train. intros E.
  apply bind_inv_ok in E as (w1 & Xt & _ & E).
  apply bind_inv_ok in E as (w2 & [Xr yr] & _ & E).
  apply bind_inv_ok in E as (w3 & clf & _ & E).
  apply bind_inv_ok in E as (w4 & l & E4 & E).
  injection E as <- <-. injection E4 as <- <-. cbn.
  apply lookup_insert_eq.
Qed.

Lemma scores_agree pipe p m X w :
  heap w !! pipe = Some (OPipeline [("prep", p); ("clf", m)]) →
  (evaluate_scores pipe X w).2 = (pipeline_scores pipe X w).2.
Proof.
  intros Hpipe. exec. rewrite Hpipe. cbn.
  destruct (heap w !! p) as [[ct [f|]|spec fm|steps]|] eqn:Hp; cbn;
    try reflexivity.
  destruct (ct_transform f X) as [e|Xt] eqn:Et; cbn; [reflexivity|].
  rewrite Hpipe. cbn.
  destruct (heap w !! m) as [[ct' f'|spec [fm|]|steps]|] eqn:Hm; cbn;
    try reflexivity.
  destruct (estimator_predict fm Xt) as [e|y_pred]; cbn; [reflexivity|].
  rewrite Hm, Hpipe. cbn. rewrite Hp. cbn. rewrite Et. cbn.
  rewrite Hm. cbn.
  destruct (estimator_predict_proba fm Xt) as [e|proba]; cbn;
    [reflexivity|].
  destruct (column_of 1 proba); reflexivity.
Qed.

(** C9. On the pipeline [train] returns, the evaluator's own route
    (transform with the "prep" stage, then [predict] and [predict_proba]
    on the "clf" stage, then column 1) gives the same predictions and the
    same scores as the pipeline's [predict] and [predict_proba], on every
    table; when one route raises, the other raises the same exception. *)
Theorem C9_evaluator_agrees_with_pipeline G X y p m w w' pipe X_test :
  train G X y p m w = (w', Ok pipe) →
  (evaluate_scores pipe X_test w').2 = (pipeline_scores pipe X_test w').2.
Proof.
  intros E. apply (scores_agree pipe p m).
  exact (train_returns_pipeline G X y p m w w' pipe E).
Qed.

Lemma bind_raise_snd {A B} (c : M A) (k : A → M B) w e :
  (c w).2 = Raise e → ((c ≫= k) w).2 = Raise e.
Proof.
  rewrite bind_unfold. unfold Raise.
  destruct (c w) as [w1 [e'|a]]; cbn; intros E;
    [by injection E as -> | discriminate E].
Qed.

Lemma evaluate_scores_runs pipe p m ct spec f fm X_test w :
  heap w !! pipe = Some (OPipeline [("prep", p); ("clf", m)]) →
  heap w !! p = Some (OColumnTransformer ct (Some f)) →
  heap w !! m = Some (OClassifier spec (Some fm)) →
  match scores_outcome f fm X_test with
  | inl e => (evaluate_scores pipe X_test w).2 = Raise e
  | inr scores =>
      ∃ cs, evaluate_scores pipe X_test w =
            (World (heap w) (np_random w) (stdout w) (files w)
                   (calls w ++ cs), Ok scores)
  end.
Proof.
  intros Hpipe Hp Hm. unfold scores_outcome. exec.
  rewrite Hpipe. cbn. rewrite Hp. cbn.
  destruct (ct_transform f X_test) as [e|Xp]; cbn; [reflexivity|].
  rewrite Hpipe. cbn. rewrite Hm. cbn.
  destruct (estimator_predict fm Xp) as [e|y_pred]; cbn; [reflexivity|].
  rewrite Hm. cbn.
  destruct (estimator_predict_proba fm Xp) as [e|proba]; cbn;
    [reflexivity|].
  destruct (column_of 1 proba) as [e|y_prob]; cbn; [reflexivity|].
  eexists. rewrite <- !app_assoc. reflexivity.
Qed.

Lemma evaluate_runs pipe p m ct spec f fm X_test y_test w :
  heap w !! pipe = Some (OPipeline [("prep", p); ("clf", m)]) →
  heap w !! p = Some (OColumnTransformer ct (Some f)) →
  heap w !! m = Some (OClassifier spec (Some fm)) →
  match evaluate_outcome f fm X_test y_test with
  | inl e => (evaluate pipe X_test y_test w).2 = Raise e
  | inr (report, auc) =>
      ∃ cs, evaluate pipe X_test y_test w =
            (World (heap w) (np_random w)
                   (stdout w ++ [report; "ROC AUC: " ++ float_str auc])
                   (files w) (calls w ++ cs), Ok ())
  end.
Proof.
  intros Hpipe Hp Hm. unfold evaluate_outcome, evaluate.
  pose proof (evaluate_scores_runs pipe p m ct spec f fm X_test w
                Hpipe Hp Hm) as Hs.
  destruct (scores_outcome f fm X_test) as [e|[y_pred y_prob]]; cbn.
  { apply bind_raise_snd. exact Hs. }
  destruct Hs as [cs Hs]. rewrite (bind_ok _ _ _ _ _ Hs).
  unfold lift, print, mbind, M_bind. cbn.
  destruct (classification_report y_test y_pred) as [e|report]; cbn;
    [reflexivity|].
  destruct (roc_auc_score y_test y_prob) as [e|auc]; cbn; [reflexivity|].
  exists cs. rewrite <- !app_assoc. reflexivity.
Qed.

Lemma joblib_dump_pipeline pipe a p b m ct fo spec fmo file w :
  heap w !! pipe = Some (OPipeline [(a, p); (b, m)]) →
  heap w !! p = Some (OColumnTransformer ct fo) →
  heap w !! m = Some (OClassifier spec fmo) →
  joblib_dump pipe file w =
  (World (heap w) (np_random w) (stdout w)
         (<[file:=PkPipeline [(a, PkColumnTransformer ct fo);
                              (b, PkClassifier spec fmo)]]> (files w))
         (calls w ++ [Call_dump pipe file]), Ok ()).
Proof.
  intros Hpipe Hp Hm. exec. unfold pickle, pickle_estimator. cbn.
  rewrite Hpipe. cbn. rewrite Hp, Hm. reflexivity.
Qed.

(** ** Data source, as a function of the generator alone *)

Lemma generate_data_closed n w :
  generate_data n w =
  (World (heap w) (generate_data_pure n).2 (stdout w) (files w) (calls w),
   (generate_data_pure n).1).
Proof.
  unfold generate_data, generate_data_pure, np_random_seed_call, draw,
    lift, mbind, M_bind. cbn.
  destruct (np_random_exponential _ _ _) as [amount s1]. cbn.
  destruct (np_random_choice _ _ s1) as [pm s2]. cbn.
  destruct (np_random_choice _ _ s2) as [dt s3]. cbn.
  destruct (np_random_randint _ _ _ s3) as [hour s4]. cbn.
  destruct (np_random_choice_p _ _ _ s4) as [fraud s5]. reflexivity.
Qed.

(** ** Runner *)

Lemma main_runs G w :
  match main_outcome G with
  | inl e => (main G w).2 = Raise e
  | inr (a, (report, auc), s) =>
      ∃ w', main G w = (w', Ok ())
            ∧ files w' = <["fraud_model.pkl":=a]> (files w)
            ∧ stdout w' = (stdout w ++ console_of report auc)%list
            ∧ np_random w' = s
  end.
Proof.
  remember (main G w) as out eqn:Eout.
  unfold main_outcome. unfold main in Eout.
  rewrite bind_unfold, generate_data_closed in Eout.
  destruct (generate_data_pure 1000) as [[e|df] s]; cbn in *;
    [by subst|].
  rewrite bind_unfold in Eout. unfold lift in Eout. cbn in Eout.
  destruct (df_drop df ["is_fraud"]) as [e|X]; cbn in *; [by subst|].
  rewrite bind_unfold in Eout. cbn in Eout.
  destruct (df_getitem df "is_fraud") as [e|y]; cbn in *; [by subst|].
  rewrite bind_unfold in Eout. unfold train_test_split_call in Eout.
  cbn in Eout.
  destruct (train_test_split X y (Some y) (25 # 100) s)
    as [[e|[[[X_train X_test] y_train] y_test]] s']; cbn in *;
    [by subst|].
  rewrite bind_unfold in Eout. unfold print at 1 in Eout. cbn in Eout.
  rewrite bind_unfold in Eout. unfold build_preprocessor, new in Eout.
  cbn in Eout. fold (plan_of X_train) in Eout.
  rewrite bind_unfold in Eout. cbn in Eout.
  rewrite bind_unfold in Eout. unfold print at 1 in Eout. cbn in Eout.
  set (p := fresh (dom (heap w))) in *.
  set (o_p := OColumnTransformer (plan_of X_train) None) in *.
  set (m := fresh (dom (<[p:=o_p]> (heap w)))) in *.
  set (spec := RandomForestClassifier 300 42) in *.
  assert (m ≠ p) as Hmp.
  { pose proof (is_fresh (dom (<[p:=o_p]> (heap w)))) as Hfr.
    fold m in Hfr. rewrite dom_insert_L in Hfr. set_solver. }
  match type of Eout with
  | _ = (_ ≫= _) ?w0 => set (w2 := w0) in *
  end.
  assert (heap w2 !! p = Some o_p) as Hp
    by (cbn; rewrite lookup_insert_ne by done; apply lookup_insert_eq).
  assert (heap w2 !! m = Some (OClassifier spec None)) as Hm
    by (cbn; apply lookup_insert_eq).
  pose proof (train_runs G X_train y_train p m w2 _ _ _ _ Hp Hm) as Hrun.
  destruct (train_outcome G (plan_of X_train) spec X_train y_train)
    as [e|[[[f Xt] [Xr yr]] fm]]; cbn.
  { subst out. apply bind_raise_snd. exact Hrun. }
  destruct Hrun as (pipe & Hfresh & Hpp & Hpm & Etrain).
  rewrite (bind_ok _ _ _ _ _ Etrain) in Eout.
  rewrite bind_unfold in Eout. unfold print at 1 in Eout. cbn in Eout.
  match type of Eout with
  | _ = (_ ≫= _) ?w0 => set (w3 := w0) in *
  end.
  assert (heap w3 !! pipe = Some (OPipeline [("prep", p); ("clf", m)]))
    as Hpipe3 by (cbn; apply lookup_insert_eq).
  assert (heap w3 !! p = Some (OColumnTransformer (plan_of X_train) (Some f)))
    as Hp3
    by (cbn; rewrite !lookup_insert_ne by done; apply lookup_insert_eq).
  assert (heap w3 !! m = Some (OClassifier spec (Some fm))) as Hm3
    by (cbn; rewrite lookup_insert_ne by done; apply lookup_insert_eq).
  pose proof (evaluate_runs pipe p m _ _ f fm X_test y_test w3
                Hpipe3 Hp3 Hm3) as Hev.
  destruct (evaluate_outcome f fm X_test y_test) as [e|[report auc]]; cbn.
  { subst out. apply bind_raise_snd. exact Hev. }
  destruct Hev as (cs & Hev).
  rewrite (bind_ok _ _ _ _ _ Hev) in Eout.
  rewrite bind_unfold in Eout. unfold print at 1 in Eout. cbn in Eout.
  erewrite joblib_dump_pipeline in Eout by (cbn; eassumption).
  cbn in Eout. subst out. eexists. split; [reflexivity|]. cbn.
  split; [reflexivity|]. split; [|reflexivity].
  unfold console_of. rewrite <- !app_assoc. reflexivity.
Qed.

(** A run that raises does so from every world, with the same exception. *)
Lemma main_raises_in_every_world G w1 w2 e :
  (main G w1).2 = Raise e → (main G w2).2 = Raise e.
Proof.
  intros E1.
  pose proof (main_runs G w1) as H1. pose proof (main_runs G w2) as H2.
  destruct (main_outcome G) as [e0|[[a [report auc]] s]].
  - congruence.
  - destruct H1 as (w1' & E1' & _). rewrite E1' in E1. discriminate E1.
Qed.

(** C2. Take two runs of [main], started in any two worlds (any generator
    state, any store, any files), the first of which completes.  Then the
    second completes too, each run leaves a pipeline under
    "fraud_model.pkl", the two stored pipelines are equal, so that they
    predict the same on every probe table, and both runs leave the
    generator in the same state. *)
Theorem C2_two_runs_store_the_same_pipeline G w1 w2 :
  (main G w1).2 = Ok () →
  ∃ w1' w2' a1 a2,
    main G w1 = (w1', Ok ()) ∧ main G w2 = (w2', Ok ())
    ∧ files w1' !! "fraud_model.pkl" = Some a1
    ∧ files w2' !! "fraud_model.pkl" = Some a2
    ∧ a1 = a2
    ∧ np_random w1' = np_random w2'
    ∧ ∀ probe, artifact_predict a1 probe = artifact_predict a2 probe.
Proof.
  intros E1.
  pose proof (main_runs G w1) as H1. pose proof (main_runs G w2) as H2.
  destruct (main_outcome G) as [e|[[a [report auc]] s]].
  - rewrite E1 in H1. discriminate H1.
  - destruct H1 as (w1' & E1' & F1 & _ & R1).
    destruct H2 as (w2' & E2 & F2 & _ & R2).
    exists w1', w2', a, a. repeat split; try assumption.
    + rewrite F1. apply lookup_insert_eq.
    + rewrite F2. apply lookup_insert_eq.
    + congruence.
Qed.

(** C8 (as the code has it). A run of [main] that completes adds exactly
    six items to the console, in this order: "✔ Building pipeline",
    "✔ Training model", "✔ Evaluating model", the classification report,
    "ROC AUC: <float>", "✔ Saving model". *)
Theorem C8_console_of_a_completed_run G w :
  (main G w).2 = Ok () →
  ∃ report auc,
    stdout (main G w).1 =
    (stdout w ++ ["✔ Building pipeline"; "✔ Training model";
                  "✔ Evaluating model"; report;
                  ("ROC AUC: " ++ float_str auc)%string;
                  "✔ Saving model"])%list.
Proof.
  intros E. pose proof (main_runs G w) as H.
  destruct (main_outcome G) as [e|[[a [report auc]] s]].
  - rewrite E in H. discriminate H.
  - destruct H as (w0 & E0 & _ & Hout & _).
    exists report, auc. rewrite E0. exact Hout.
Qed.

(** ** The script *)

Lemma run_script_raises installed file w :
  ∃ e, run_script installed file w = (w, Raise e).
Proof.
  unfold run_script, required_imports. rewrite bind_unfold.
  cbn [exec_imports].
  repeat (destruct (installed _); [|eexists; reflexivity]).
  cbn. unfold xgb_guard, smote_guard.
  destruct (installed "xgboost"), (installed "imblearn.over_sampling");
    eexists; vm_compute; reflexivity.
Qed.

(** C1, on the code: with every package installed, running the file stops
    at its last statement.  The guard reads the name [_name_], which
    neither the module nor the builtins define, so a [NameError] is raised
    and the world is left as it was: [main] is not called, nothing is
    printed and no file is written. *)
Theorem C1_script_stops_at_the_guard w :
  run_script (λ _, true) "main.py" w = (w, Raise (NameError "_name_")).
Proof. vm_compute. reflexivity. Qed.

(** ** Data source *)

Lemma rint_nonneg (x : Q) : (0 <= x)%Q → (0 ≤ rint x)%Z.
Proof.
  unfold Qle, rint. cbn. rewrite Z.mul_1_r. intros Hx.
  assert (0 ≤ Qnum x / Z.pos (Qden x))%Z by (apply Z.div_pos; lia).
  destruct (_ ?= _)%Z; [destruct (Z.even _)| |]; lia.
Qed.

Lemma np_round_2_nonneg (x : Q) :
  (0 <= x)%Q → ∃ k : Z, (0 ≤ k)%Z ∧ np_round 2 x = (k # 100)%Q.
Proof.
  intros Hx. unfold np_round.
  exists (rint (x * inject_Z (10 ^ Z.of_nat 2))). split; [|reflexivity].
  apply rint_nonneg. apply Qmult_le_0_compat; [exact Hx | done].
Qed.

(** C7 (as the code has it). Whatever [n] and whatever the world,
    [generate_data(n)] returns a table of the five columns, each of [n]
    values: amounts that are non-negative multiples of 0.01 (0.00 is
    possible), payment methods among CARD, UPI, NETBANKING, device types
    among MOBILE, DESKTOP, integer hours from 0 to 23 and labels 0 or 1. *)
Theorem C7_generated_records_fit_the_schema `{!NumpyContract} n w :
  ∃ amount payment_method device_type hour is_fraud,
    (generate_data n w).2 =
    Ok [("amount", FloatCol amount);
        ("payment_method", ObjCol payment_method);
        ("device_type", ObjCol device_type);
        ("hour", IntCol hour);
        ("is_fraud", IntCol is_fraud)]
    ∧ (length amount = n ∧ length payment_method = n
       ∧ length device_type = n ∧ length hour = n ∧ length is_fraud = n)
    ∧ (∀ a, a ∈ amount → ∃ k : Z, (0 ≤ k)%Z ∧ a = (k # 100)%Q)
    ∧ (∀ x, x ∈ payment_method → x ∈ ["CARD"; "UPI"; "NETBANKING"])
    ∧ (∀ x, x ∈ device_type → x ∈ ["MOBILE"; "DESKTOP"])
    ∧ (∀ h, h ∈ hour → (0 ≤ h ≤ 23)%Z)
    ∧ (∀ b, b ∈ is_fraud → b = 0%Z ∨ b = 1%Z).
Proof.
  rewrite generate_data_closed. cbn. unfold generate_data_pure.
  pose proof (exponential_length (200 # 1) n (np_random_seed 42)) as La.
  pose proof (exponential_support (200 # 1) n (np_random_seed 42)) as Sa.
  destruct (np_random_exponential _ _ _) as [amount s1]. cbn in La, Sa.
  pose proof (choice_length ["CARD"; "UPI"; "NETBANKING"] n s1) as Lp.
  pose proof (choice_support ["CARD"; "UPI"; "NETBANKING"] n s1) as Sp.
  destruct (np_random_choice _ _ s1) as [pm s2]. cbn in Lp, Sp.
  pose proof (choice_length ["MOBILE"; "DESKTOP"] n s2) as Ld.
  pose proof (choice_support ["MOBILE"; "DESKTOP"] n s2) as Sd.
  destruct (np_random_choice _ _ s2) as [dt s3]. cbn in Ld, Sd.
  pose proof (randint_length 0 24 n s3) as Lh.
  pose proof (randint_support 0 24 n s3) as Sh.
  destruct (np_random_randint _ _ _ s3) as [hour s4]. cbn in Lh, Sh.
  pose proof (choice_p_length [0; 1]%Z [(95 # 100)%Q; (5 # 100)%Q] n s4)
    as Lf.
  pose proof (choice_p_support [0; 1]%Z [(95 # 100)%Q; (5 # 100)%Q] n s4)
    as Sf.
  destruct (np_random_choice_p _ _ _ s4) as [fraud s5]. cbn in Lf, Sf.
  exists (np_round 2 <$> amount), pm, dt, hour, fraud. cbn.
  split.
  { unfold pd_DataFrame, col_length. cbn.
    rewrite !length_fmap, La, Lp, Ld, Lh, Lf, !Nat.eqb_refl.
    reflexivity. }
  split; [by rewrite length_fmap|].
  split.
  { intros a [x [-> Hx]]%list_elem_of_fmap.
    apply np_round_2_nonneg, Sa; done. }
  split; [intros x Hx; by apply Sp|].
  split; [intros x Hx; by apply Sd|].
  split; [intros h Hh; apply Sh in Hh; lia|].
  intros b Hb. apply Sf in Hb; [|done..].
  apply elem_of_cons in Hb as [->|Hb]; [by left|].
  apply list_elem_of_singleton in Hb as ->. by right.
Qed.

(** ** Preprocessor *)

Lemma rmapM_Forall2 {A B} (f : A → result B) l bs :
  rmapM f l = Ok bs ↔ Forall2 (λ a b, f a = Ok b) l bs.
Proof.
  revert bs. induction l as [|a l IH]; intros bs; cbn.
  - split; [intros [= <-]; constructor | intros ->%Forall2_nil_inv_l; done].
  - destruct (f a) as [e|b] eqn:Ea; cbn.
    { split; [discriminate|].
      intros (b & bs' & Hb & _ & _)%Forall2_cons_inv_l.
      unfold Ok in *. congruence. }
    destruct (rmapM f l) as [e|bs'] eqn:El; cbn.
    { split; [discriminate|].
      intros (b' & bs' & _ & Hbs & _)%Forall2_cons_inv_l.
      apply IH in Hbs. discriminate. }
    split.
    + intros [= <-]. constructor; [done|]. by apply IH.
    + intros (b' & bs'' & Hb & Hbs & ->)%Forall2_cons_inv_l.
      apply IH in Hbs. unfold Ok in *. congruence.
Qed.

Lemma rmapM_total {A B} (f : A → result B) l :
  (∀ a, a ∈ l → ∃ b, f a = Ok b) → ∃ bs, rmapM f l = Ok bs.
Proof.
  induction l as [|a l IH]; intros Hl; cbn; [by eexists|].
  destruct (Hl a) as [b ->]; [left|]. cbn.
  destruct IH as [bs ->]; [intros; apply Hl; by right|].
  by eexists.
Qed.

Lemma rzip_with_ok {A B C} (f : A → B → result C) (g : A → B → C) l k :
  length l = length k →
  (∀ a b, a ∈ l → b ∈ k → f a b = Ok (g a b)) →
  rzip_with f l k = Ok (zip_with g l k).
Proof.
  revert k. induction l as [|a l IH]; intros [|b k] Hlen Hf;
    try discriminate; cbn; [done|].
  rewrite Hf by left. cbn. rewrite IH; [done|by injection Hlen|].
  intros; apply Hf; by right.
Qed.

Lemma onehot_cell_ignore cats v :
  onehot_cell HU_ignore cats v = Ok (indicator cats v).
Proof. unfold onehot_cell. by destruct (existsb _ _). Qed.

Lemma indicator_length cats v : length (indicator cats v) = length cats.
Proof. unfold indicator. by rewrite length_fmap. Qed.

Lemma indicator_unseen cats v :
  (∀ c, c ∈ cats → cell_eqb v c = false) →
  indicator cats v = repeat 0%Q (length cats).
Proof.
  unfold indicator. induction cats as [|c cats IH]; intros Hv; cbn; [done|].
  rewrite Hv by left. f_equal. apply IH. intros; apply Hv; by right.
Qed.

Lemma insert_sorted_elem v l c :
  c ∈ insert_sorted v l → c = v ∨ c ∈ l.
Proof.
  induction l as [|x l IH]; cbn.
  - intros ->%list_elem_of_singleton. by left.
  - destruct (cell_compare v x).
    + by right.
    + intros [->|H]%elem_of_cons; [by left | by right].
    + intros [->|H]%elem_of_cons; [right; left|].
      destruct (IH H) as [->|?]; [by left | right; by right].
Qed.

Lemma categories_of_observed col c :
  c ∈ categories_of col → c ∈ cells col.
Proof.
  unfold categories_of. induction (cells col) as [|v l IH]; cbn;
    [done|].
  intros [->|H]%insert_sorted_elem; [left | right; by apply IH].
Qed.

Lemma select_columns_Forall2 X cols cs :
  select_columns X cols = Ok cs ↔
  Forall2 (λ c col, df_lookup X c = Some col) cols cs.
Proof.
  unfold select_columns. rewrite rmapM_Forall2.
  split; intros H; (eapply Forall2_impl; [exact H|]); cbn; intros c col.
  - destruct (df_lookup X c); [intros [= ->]; done | discriminate].
  - intros ->. done.
Qed.

Lemma select_row_ok X' cols i vs :
  Forall2 (cell_at X' i) cols vs → select_row X' cols i = Ok vs.
Proof.
  intros H. unfold select_row.
  assert (∃ cs, Forall2 (λ c col, df_lookup X' c = Some col) cols cs
                ∧ Forall2 (λ col v, cells col !! i = Some v) cs vs)
    as (cs & H1 & H2).
  { induction H as [|c v cols vs (col & Hc & Hv) _ (cs & H1 & H2)].
    - exists []. split; constructor.
    - exists (col :: cs). split; constructor; done. }
  apply select_columns_Forall2 in H1. rewrite H1. cbn.
  apply rmapM_Forall2. eapply Forall2_impl; [exact H2|].
  cbn. intros col v ->. done.
Qed.

Lemma numeric_cells col i :
  is_number col = true → i < col_length col →
  ∃ q, cells col !! i = Some (CNum q).
Proof.
  unfold col_length. destruct col as [v|v|v]; cbn; try discriminate;
    intros _; rewrite length_fmap; intros [x Hx]%lookup_lt_is_Some_2;
    rewrite list_lookup_fmap, Hx; cbn; by eexists.
Qed.

Lemma numeric_row X' cols i :
  forallb (λ c, match df_lookup X' c with
                | Some col =>
                    is_number col && Nat.eqb (col_length col) (nrows X')
                | None => false
                end) cols = true →
  i < nrows X' →
  ∃ nums, Forall2 (cell_at X' i) cols (CNum <$> nums).
Proof.
  intros Hall Hi. induction cols as [|c cols IH]; cbn in *.
  - exists []. constructor.
  - apply andb_true_iff in Hall as [Hc Hall].
    destruct (df_lookup X' c) as [col|] eqn:Ec; [|discriminate].
    apply andb_true_iff in Hc as [Hnum Hlen%Nat.eqb_eq].
    destruct (numeric_cells col i Hnum) as [q Hq]; [lia|].
    destruct (IH Hall) as [nums Hnums].
    exists (q :: nums). constructor; [by exists col | done].
Qed.

Lemma categorical_row X' cols i :
  forallb (λ c, match df_lookup X' c with
                | Some col => Nat.eqb (col_length col) (nrows X')
                | None => false
                end) cols = true →
  i < nrows X' →
  ∃ vs, Forall2 (cell_at X' i) cols vs.
Proof.
  intros Hall Hi. induction cols as [|c cols IH]; cbn in *.
  - exists []. constructor.
  - apply andb_true_iff in Hall as [Hc Hall].
    destruct (df_lookup X' c) as [col|] eqn:Ec; [|discriminate].
    apply Nat.eqb_eq in Hc.
    destruct (lookup_lt_is_Some_2 (cells col) i) as [v Hv];
      [unfold col_length in Hc; lia|].
    destruct (IH Hall) as [vs Hvs].
    exists (v :: vs). constructor; [by exists col | done].
Qed.

Lemma ct_fit_plan X f :
  ct_fit (plan_of X) X = Ok f →
  ∃ stats ccols,
    length stats = length (select_dtypes_include_number X)
    ∧ Forall2 (λ c col, df_lookup X c = Some col)
              (select_dtypes_exclude_number X) ccols
    ∧ f = [("num", FittedScaler stats, select_dtypes_include_number X);
           ("cat", FittedOneHot HU_ignore (categories_of <$> ccols),
            select_dtypes_exclude_number X)].
Proof.
  unfold ct_fit, plan_of. cbn.
  destruct (select_columns X (select_dtypes_include_number X))
    as [e|ncols] eqn:En; cbn; [discriminate|].
  destruct (rmapM numeric_values ncols) as [e|vs] eqn:Ev; cbn;
    [discriminate|].
  destruct (select_columns X (select_dtypes_exclude_number X))
    as [e|ccols] eqn:Ec; cbn; [discriminate|].
  intros [= <-]. exists (scaler_fit <$> vs), ccols.
  split; [|split; [by apply select_columns_Forall2 | reflexivity]].
  apply select_columns_Forall2, Forall2_length in En.
  apply rmapM_Forall2, Forall2_length in Ev.
  rewrite length_fmap. congruence.
Qed.

Lemma ct_transform_row_plan X f X' i :
  ct_fit (plan_of X) X = Ok f →
  conforms X X' = true →
  i < nrows X' →
  ∃ scaled cs ccols,
    ct_transform_row f X' i =
    Ok (scaled ++ concat (zip_with indicator (categories_of <$> ccols) cs))%list
    ∧ length scaled = length (select_dtypes_include_number X)
    ∧ Forall2 (λ c col, df_lookup X c = Some col)
              (select_dtypes_exclude_number X) ccols
    ∧ Forall2 (cell_at X' i) (select_dtypes_exclude_number X) cs.
Proof.
  intros (stats & ccols & Hstats & Hcc & ->)%ct_fit_plan
         [Hnum Hcat]%andb_true_iff Hi.
  destruct (numeric_row X' _ i Hnum Hi) as [nums Hnums].
  destruct (categorical_row X' _ i Hcat Hi) as [cs Hcs].
  exists (zip_with scaler_apply stats nums), cs, ccols.
  split; [|split; [|done]].
  - unfold ct_transform_row. cbn.
    rewrite (select_row_ok _ _ _ _ Hnums). cbn.
    rewrite (rzip_with_ok scale_cell
               (λ s v, match v with CNum q => scaler_apply s q | _ => 0%Q end)).
    2:{ apply Forall2_length in Hnums. congruence. }
    2:{ intros s v _ [q [-> _]]%list_elem_of_fmap. done. }
    cbn. rewrite (select_row_ok _ _ _ _ Hcs). cbn.
    rewrite (rzip_with_ok _ indicator).
    2:{ apply Forall2_length in Hcc, Hcs. rewrite length_fmap. congruence. }
    2:{ intros; apply onehot_cell_ignore. }
    cbn. rewrite app_nil_r. f_equal. f_equal.
    clear. revert nums. induction stats as [|s stats IH]; intros [|q nums];
      cbn; [done..|]. by rewrite IH.
  - apply Forall2_length in Hnums. rewrite length_fmap in Hnums.
    rewrite length_zip_with. lia.
Qed.

Lemma blocks_offset X cats ccols cs j :
  Forall2 (λ c col, df_lookup X c = Some col) cats ccols →
  length cs = length cats →
  length (concat (take j (zip_with indicator (categories_of <$> ccols) cs)))
  = sum_list_with (ncats X) (take j cats).
Proof.
  intros H. revert cs j.
  induction H as [|c col cats ccols Hc _ IH]; intros cs j Hlen.
  - destruct cs; [|discriminate]. by destruct j.
  - destruct cs as [|v cs]; [discriminate|]. destruct j as [|j]; [done|].
    cbn. rewrite length_app, indicator_length, IH by (by injection Hlen).
    unfold ncats at 2. by rewrite Hc.
Qed.

Lemma ct_transform_plan X f X' :
  ct_fit (plan_of X) X = Ok f →
  conforms X X' = true →
  ∃ M, ct_transform f X' = Ok M
       ∧ length M = nrows X'
       ∧ ∀ i row, M !! i = Some row → ct_transform_row f X' i = Ok row.
Proof.
  intros Hfit Hconf. unfold ct_transform.
  destruct (rmapM_total (ct_transform_row f X') (seq 0 (nrows X')))
    as [M HM].
  { intros i [_ Hi]%elem_of_seq.
    destruct (ct_transform_row_plan X f X' i Hfit Hconf)
      as (? & ? & ? & -> & _); [lia | by eexists]. }
  exists M. split; [exact HM|]. apply rmapM_Forall2 in HM.
  split; [by rewrite <- (Forall2_length _ _ _ HM), length_seq|].
  intros i row Hrow.
  destruct (Forall2_lookup_r _ _ _ _ _ HM Hrow) as (i' & Hi' & Hr).
  apply lookup_seq in Hi' as [-> _]. exact Hr.
Qed.

Lemma conforms_categorical_length X X' c col' :
  conforms X X' = true →
  c ∈ select_dtypes_exclude_number X →
  df_lookup X' c = Some col' →
  col_length col' = nrows X'.
Proof.
  intros [_ Hcat]%andb_true_iff Hc Hl.
  rewrite forallb_forall in Hcat.
  specialize (Hcat c). rewrite Hl in Hcat.
  apply Nat.eqb_eq, Hcat, list_elem_of_In, Hc.
Qed.

Lemma unseen_block X f X' M i j c col col' v :
  ct_fit (plan_of X) X = Ok f →
  conforms X X' = true →
  ct_transform f X' = Ok M →
  select_dtypes_exclude_number X !! j = Some c →
  df_lookup X c = Some col →
  df_lookup X' c = Some col' →
  cells col' !! i = Some v →
  (∀ u, u ∈ cells col → cell_eqb v u = false) →
  ∃ pre post,
    M !! i = Some (pre ++ repeat 0%Q (length (categories_of col)) ++ post)%list
    ∧ length pre =
      length (select_dtypes_include_number X)
      + sum_list_with (ncats X) (take j (select_dtypes_exclude_number X)).
Proof.
  intros Hfit Hconf HM Hj Hcol Hcol' Hv Hunseen.
  destruct (ct_transform_plan X f X' Hfit Hconf) as (M' & HM' & Hlen & Hrows).
  rewrite HM in HM'. injection HM' as <-.
  assert (i < nrows X') as Hi.
  { rewrite <- (conforms_categorical_length X X' c col' Hconf); [|by eapply list_elem_of_lookup_2|done].
    unfold col_length. by eapply lookup_lt_Some. }
  destruct (lookup_lt_is_Some_2 M i) as [row Hrow]; [lia|].
  destruct (ct_transform_row_plan X f X' i Hfit Hconf Hi)
    as (scaled & cs & ccols & Erow & Hscaled & Hcc & Hcs).
  rewrite (Hrows i row Hrow) in Erow. injection Erow as ->.
  destruct (Forall2_lookup_l _ _ _ _ _ Hcc Hj) as (col0 & Hcol0 & Ecol0).
  rewrite Hcol in Ecol0. injection Ecol0 as <-.
  destruct (Forall2_lookup_l _ _ _ _ _ Hcs Hj) as (v0 & Hv0 & (col1 & E1 & Ev0)).
  rewrite Hcol' in E1. injection E1 as <-.
  rewrite Hv in Ev0. injection Ev0 as <-.
  set (blocks := zip_with indicator (categories_of <$> ccols) cs) in *.
  assert (blocks !! j = Some (repeat 0%Q (length (categories_of col))))
    as Hblock.
  { unfold blocks. rewrite lookup_zip_with, list_lookup_fmap, Hcol0, Hv0.
    cbn. f_equal. apply indicator_unseen.
    intros u Hu. apply Hunseen. by apply categories_of_observed. }
  exists (scaled ++ concat (take j blocks))%list,
         (concat (drop (S j) blocks)).
  split.
  - rewrite Hrow. f_equal. rewrite <- app_assoc. f_equal.
    rewrite <- (take_drop_middle blocks j _ Hblock) at 1.
    by rewrite concat_app.
  - rewrite length_app, Hscaled. f_equal.
    apply blocks_offset; [done|]. by apply Forall2_length in Hcs.
Qed.

(** C6. The preprocessor [build_preprocessor(X)] makes is the plan
    {"num": StandardScaler on the numeric columns of [X], "cat":
    OneHotEncoder(handle_unknown='ignore') on the others}.  Once fitted on
    [X] it transforms every table that has these columns without raising,
    one output row per input row; and where row [i] of the table carries,
    in the [j]-th categorical column, a value that column of [X] never
    held, the indicators of that column in output row [i] (as many as
    categories observed in [X], placed after the numeric values and the
    indicators of the categorical columns before it) are all zero. *)
Theorem C6_unseen_category_encodes_as_zeros X X' w w1 w2 p Xt :
  build_preprocessor X w = (w1, Ok p) →
  fit_transform p X w1 = (w2, Ok Xt) →
  conforms X X' = true →
  heap w1 !! p =
    Some (OColumnTransformer
            [("num", StandardScaler, select_dtypes_include_number X);
             ("cat", OneHotEncoder HU_ignore,
              select_dtypes_exclude_number X)] None)
  ∧ ∃ M,
      (transform p X' w2).2 = Ok M
      ∧ length M = nrows X'
      ∧ ∀ i j c col col' v,
          select_dtypes_exclude_number X !! j = Some c →
          df_lookup X c = Some col →
          df_lookup X' c = Some col' →
          cells col' !! i = Some v →
          (∀ u, u ∈ cells col → cell_eqb v u = false) →
          ∃ pre post,
            M !! i =
            Some (pre ++ repeat 0%Q (length (categories_of col)) ++ post)%list
            ∧ length pre =
              length (select_dtypes_include_number X)
              + sum_list_with (ncats X)
                  (take j (select_dtypes_exclude_number X)).
Proof.
  intros E1 E2 Hconf.
  unfold build_preprocessor, new in E1. injection E1 as <- <-.
  fold (plan_of X) in *.
  set (p := fresh (dom (heap w))) in *.
  split; [cbn; apply lookup_insert_eq|].
  revert E2. exec. rewrite lookup_insert_eq. cbn.
  unfold ct_fit_transform.
  destruct (ct_fit (plan_of X) X) as [e|f] eqn:Hfit; cbn; [discriminate|].
  destruct (ct_transform f X) as [e|Xt']; cbn; [discriminate|].
  intros [= <- <-]. cbn. rewrite lookup_insert_eq. cbn.
  destruct (ct_transform_plan X f X' Hfit Hconf) as (M & HM & Hlen & _).
  exists M. rewrite HM. split; [reflexivity|]. split; [exact Hlen|].
  intros i j c col col' v. by apply (unseen_block X f X' M).
Qed.
End Properties.

(** * The script on concrete data *)

Lemma numpy_cyclic_contract : @NumpyContract numpy_cyclic.
Proof.
  split; cbn.
  - intros. by rewrite length_fmap, length_seq.
  - intros scale n s x Hscale [i [-> _]]%list_elem_of_fmap.
    apply Qmult_le_0_compat; [by apply Qlt_le_weak | done].
  - intros. by rewrite length_fmap, length_seq.
  - intros a n s x Ha [i [-> _]]%list_elem_of_fmap.
    apply list_elem_of_In, nth_In, Nat.mod_upper_bound.
    by destruct a.
  - intros. by rewrite length_fmap, length_seq.
  - intros lo hi n s x Hlt [i [-> _]]%list_elem_of_fmap.
    pose proof (Z.mod_pos_bound (Z.of_nat i) (hi - lo)). lia.
  - intros. by rewrite length_fmap, length_seq.
  - intros a p n s x Ha _ [i [-> _]]%list_elem_of_fmap.
    apply list_elem_of_In, nth_In, Nat.mod_upper_bound.
    by destruct a.
Qed.

(** A run of [main] with both optional packages present completes. *)
Lemma main_completes :
  (main G_all world0).2 = Ok ()
  ∧ stdout (main G_all world0).1 =
    ["✔ Building pipeline"; "✔ Training model"; "✔ Evaluating model";
     "precision recall f1-score support"; "ROC AUC: 0.5"; "✔ Saving model"].
Proof. vm_compute. split; reflexivity. Qed.

(** Two runs in a row: the second starts in the world the first leaves,
    with the generator used, the store filled, and the first pipeline under
    "fraud_model.pkl". *)
Lemma C2_two_runs_store_the_same_pipeline_witness :
  ∃ w1' w2' a1 a2,
    main G_all world0 = (w1', Ok ())
    ∧ main G_all (main G_all world0).1 = (w2', Ok ())
    ∧ files w1' !! "fraud_model.pkl" = Some a1
    ∧ files w2' !! "fraud_model.pkl" = Some a2
    ∧ a1 = a2
    ∧ np_random w1' = np_random w2'
    ∧ ∀ probe, artifact_predict a1 probe = artifact_predict a2 probe.
Proof.
  apply (C2_two_runs_store_the_same_pipeline G_all world0
           (main G_all world0).1).
  vm_compute. reflexivity.
Defined.

Lemma C3_xgb_falls_back_to_rf_witness :
  get_model G_none "xgb" world0 = get_model G_none "rf" world0
  ∧ returns_random_forest (get_model G_none "xgb") world0
  ∧ returns_random_forest (get_model G_none "rf") world0.
Proof. apply (C3_xgb_falls_back_to_rf G_none world0). reflexivity. Defined.

Lemma C10_unrecognised_names_get_rf_witness :
  returns_random_forest (get_model G_all "svm") world0
  ∧ stdout (get_model G_all "svm" world0).1 = stdout world0.
Proof.
  apply (C10_unrecognised_names_get_rf G_all "svm" world0). discriminate.
Defined.

(** The empty name is served like any other. *)
Example get_model_empty_name :
  returns_random_forest (get_model G_all "") world0.
Proof.
  rewrite (get_model_not_xgb G_all ""); [apply new_random_forest | discriminate].
Qed.

Lemma C4_pipeline_wraps_fitted_instances_witness :
  ∃ (pipe : loc) (w' : @world numpy_cyclic sklearn_plain),
    train G_all shop shop_labels 1%positive 2%positive world_objs
    = (w', Ok pipe)
    ∧ (pipe ∉ dom (heap world_objs))
    ∧ heap w' !! pipe
      = Some (OPipeline [("prep", 1%positive); ("clf", 2%positive)])
    ∧ heap w' !! 1%positive
      = Some (OColumnTransformer (plan_of shop) (Some shop_f))
    ∧ heap w' !! 2%positive
      = Some (OClassifier (RandomForestClassifier 300 42)
                (Some (4%Z : @fitted_model numpy_cyclic sklearn_plain)))
    ∧ (∀ l, l ≠ 1%positive → l ≠ 2%positive → l ≠ pipe →
            heap w' !! l = heap world_objs !! l)
    ∧ filter is_fit_call (drop (length (calls world_objs)) (calls w'))
      = [Call_fit_transform 1%positive shop;
         Call_fit 2%positive shop_Xr shop_yr].
Proof.
  apply (C4_pipeline_wraps_fitted_instances G_all shop shop_labels
           1%positive 2%positive world_objs (plan_of shop)
           (RandomForestClassifier 300 42) shop_f shop_Xt shop_Xr shop_yr
           4%Z); reflexivity.
Defined.

Lemma C5_rebalancing_is_optional_witness :
  ∃ (pipe : loc) (w' : @world numpy_cyclic sklearn_plain),
    train G_none shop shop_labels 1%positive 2%positive world_objs
    = (w', Ok pipe)
    ∧ heap w' !! 2%positive
      = Some (OClassifier (RandomForestClassifier 300 42)
                (Some (3%Z : @fitted_model numpy_cyclic sklearn_plain)))
    ∧ shop_Xt = shop_Xt ∧ shop_labels = shop_labels
    ∧ calls w' = (calls world_objs
                  ++ [Call_fit_transform 1%positive shop;
                      Call_fit 2%positive shop_Xt shop_labels])%list.
Proof.
  apply (C5_rebalancing_is_optional G_none shop shop_labels
           1%positive 2%positive world_objs (plan_of shop) None
           (RandomForestClassifier 300 42) None
           shop_f shop_Xt shop_Xt shop_labels 3%Z); reflexivity.
Defined.

(** With the rebalancer present the same call makes three library calls,
    the middle one on the transformed matrix. *)
Example train_with_rebalancer :
  calls (train G_all shop shop_labels 1%positive 2%positive world_objs).1
  = [Call_fit_transform 1%positive shop;
     Call_fit_resample 42 shop_Xt shop_labels;
     Call_fit 2%positive shop_Xr shop_yr].
Proof. reflexivity. Qed.

Lemma C6_unseen_category_encodes_as_zeros_witness :
  ∃ (w1 w2 : @world numpy_cyclic sklearn_plain) (p : loc),
    heap w1 !! p =
      Some (OColumnTransformer
              [("num", StandardScaler, select_dtypes_include_number shop);
               ("cat", OneHotEncoder HU_ignore,
                select_dtypes_exclude_number shop)] None)
    ∧ ∃ M,
        (transform p shop_new w2).2 = Ok M
        ∧ length M = nrows shop_new
        ∧ ∀ i j c col col' v,
            select_dtypes_exclude_number shop !! j = Some c →
            df_lookup shop c = Some col →
            df_lookup shop_new c = Some col' →
            cells col' !! i = Some v →
            (∀ u, u ∈ cells col → cell_eqb v u = false) →
            ∃ pre post,
              M !! i =
              Some (pre ++ repeat 0%Q (length (categories_of col)) ++ post)%list
              ∧ length pre =
                length (select_dtypes_include_number shop)
                + sum_list_with (ncats shop)
                    (take j (select_dtypes_exclude_number shop)).
Proof.
  do 3 eexists.
  eapply (C6_unseen_category_encodes_as_zeros shop shop_new world0);
    reflexivity.
Defined.

(** The same on the numbers: "NETBANKING" was never seen in [shop], and its
    row gets 0, 0 where "CARD" gets 1, 0. *)
Example shop_new_encoded :
  rbind (@ct_fit numpy_cyclic sklearn_plain (plan_of shop) shop)
        (λ f, ct_transform f shop_new)
  = Ok [[7; 1; 0; 0]; [8.25; 2; 1; 0]]%Q.
Proof. reflexivity. Qed.

(** Under the library's default, [handle_unknown='error'], the same value
    is refused. *)
Example unseen_category_refused_by_default :
  onehot_cell HU_error [CStr "CARD"; CStr "UPI"] (CStr "NETBANKING")
  = Raise (ValueError "Found unknown categories").
Proof. reflexivity. Qed.

Lemma C7_generated_records_fit_the_schema_witness :
  ∃ amount payment_method device_type hour is_fraud,
    (generate_data 9 world0).2 =
    Ok [("amount", FloatCol amount);
        ("payment_method", ObjCol payment_method);
        ("device_type", ObjCol device_type);
        ("hour", IntCol hour);
        ("is_fraud", IntCol is_fraud)]
    ∧ (length amount = 9 ∧ length payment_method = 9
       ∧ length device_type = 9 ∧ length hour = 9 ∧ length is_fraud = 9)
    ∧ (∀ a, a ∈ amount → ∃ k : Z, (0 ≤ k)%Z ∧ a = (k # 100)%Q)
    ∧ (∀ x, x ∈ payment_method → x ∈ ["CARD"; "UPI"; "NETBANKING"])
    ∧ (∀ x, x ∈ device_type → x ∈ ["MOBILE"; "DESKTOP"])
    ∧ (∀ h, h ∈ hour → (0 ≤ h ≤ 23)%Z)
    ∧ (∀ b, b ∈ is_fraud → b = 0%Z ∨ b = 1%Z).
Proof.
  exact (@C7_generated_records_fit_the_schema numpy_cyclic sklearn_plain
           numpy_cyclic_contract 9 world0).
Defined.

(** Nine rows drawn from the cyclic generator: the ninth draw, 0.002,
    rounds to 0.00. *)
Example generate_data_nine_amounts :
  rbind (generate_data 9 world0).2 (λ df, df_getitem df "amount")
  = Ok (FloatCol [9 # 100; 9 # 100; 9 # 100; 9 # 100; 9 # 100;
                  10 # 100; 10 # 100; 10 # 100; 0 # 100]%Q).
Proof. vm_compute. reflexivity. Qed.

(** C7 as it is written fails: a sampler may well return a draw below
    0.005, and [round(2)] turns it into an amount of 0.00, which is not
    positive.  Here the ninth of nine generated amounts is such a one. *)
Lemma C7_amount_can_be_zero :
  ¬ (∀ (NP : Numpy) (SK : Sklearn), NumpyContract →
     ∀ n w df amount,
       (generate_data n w).2 = Ok df →
       df_getitem df "amount" = Ok (FloatCol amount) →
       ∀ a, a ∈ amount → (0 < a)%Q).
Proof.
  intros claim.
  specialize (claim numpy_cyclic sklearn_plain numpy_cyclic_contract
                9 world0 _ _ eq_refl eq_refl (0 # 100)%Q).
  assert (0 < 0 # 100)%Q as Hpos.
  { apply claim. do 8 right. left. }
  discriminate Hpos.
Qed.

Lemma C8_console_of_a_completed_run_witness :
  ∃ report auc,
    stdout (main G_all world0).1 =
    (stdout world0 ++ ["✔ Building pipeline"; "✔ Training model";
                       "✔ Evaluating model"; report;
                       ("ROC AUC: "
                        ++ @float_str numpy_cyclic sklearn_plain auc)%string;
                       "✔ Saving model"])%list.
Proof.
  apply (C8_console_of_a_completed_run G_all world0).
  vm_compute. reflexivity.
Defined.

(** C8 as it is written fails: the report and the ROC AUC line are printed
    by [evaluate], before "Saving model".  On a completed run the sixth and
    last item is the saving line, so the console is not four progress lines
    followed by the report and the ROC AUC line, whatever the text of the
    progress lines is taken to be. *)
Lemma C8_saving_line_is_printed_last :
  (main G_all world0).2 = Ok ()
  ∧ ∀ l1 l2 l3 l4 report auc,
      stdout (main G_all world0).1
      ≠ [l1; l2; l3; l4; report; ("ROC AUC: " ++ auc)%string].
Proof.
  destruct main_completes as [Hrun Hout].
  split; [exact Hrun|].
  intros l1 l2 l3 l4 report auc. rewrite Hout. intros E.
  injection E as _ _ _ _ _ E. discriminate E.
Qed.

Lemma C9_evaluator_agrees_with_pipeline_witness :
  ∃ (w' : @world numpy_cyclic sklearn_plain) (pipe : loc),
    (evaluate_scores pipe shop_new w').2 = (pipeline_scores pipe shop_new w').2.
Proof.
  do 2 eexists.
  eapply (C9_evaluator_agrees_with_pipeline G_all shop shop_labels
            1%positive 2%positive world_objs).
  reflexivity.
Defined.

(** Both routes on the numbers. *)
Example shop_new_scores :
  let w' := (train G_all shop shop_labels 1%positive 2%positive world_objs).1 in
  (evaluate_scores 3%positive shop_new w').2
  = Ok ([0; 0]%Z, [1 # 4; 1 # 4]%Q)
  ∧ (pipeline_scores 3%positive shop_new w').2
    = Ok ([0; 0]%Z, [1 # 4; 1 # 4]%Q).
Proof. split; reflexivity. Qed.

(** * Further properties *)

Section Further.
Context {NP : Numpy} {SK : Sklearn}.
Implicit Types (w : world) (G : module_globals) (X : DataFrame)
  (y : column) (p m pipe : loc).

Lemma preserves_bind {A B C} (proj : world → C) (c : M A) (k : A → M B) :
  preserves proj c → (∀ a, preserves proj (k a)) → preserves proj (c ≫= k).
Proof.
  intros Hc Hk w. rewrite bind_unfold. specialize (Hc w).
  destruct (c w) as [w1 [e|a]]; cbn in *; [exact Hc|].
  rewrite Hk. exact Hc.
Qed.

Lemma preserves_deref {B} (proj : world → B) l : preserves proj (deref l).
Proof. intros w. unfold deref. by destruct (heap w !! l). Qed.

Ltac frame :=
  repeat first
    [ apply preserves_bind; [|intros ?]
    | apply preserves_deref
    | match goal with
      | |- preserves _ (match ?x with _ => _ end) => destruct x
      end
    | (intros ?; reflexivity) ].

Lemma train_frame G X y p m :
  preserves np_random (train G X y p m)
  ∧ preserves stdout (train G X y p m)
  ∧ preserves files (train G X y p m).
Proof.
  unfold train, fit_transform, fit, Pipeline. repeat split; frame.
Qed.







Lemma evaluate_scores_frame pipe X :
  preserves heap (evaluate_scores pipe X)
  ∧ preserves np_random (evaluate_scores pipe X)
  ∧ preserves stdout (evaluate_scores pipe X)
  ∧ preserves files (evaluate_scores pipe X).
Proof.
  unfold evaluate_scores, named_steps, transform, predict, predict_proba.
  repeat split; frame.
Qed.

Lemma evaluate_frame pipe X y :
  preserves heap (evaluate pipe X y)
  ∧ preserves np_random (evaluate pipe X y)
  ∧ preserves files (evaluate pipe X y).
Proof.
  unfold evaluate, evaluate_scores, named_steps, transform, predict, predict_proba.
  repeat split; frame.
Qed.

(** X6. [get_model] always returns a new, unfitted classifier and changes
    no existing object; it is the boosted one,
    [XGBClassifier(n_estimators=300, max_depth=6, learning_rate=0.1,
    n_jobs=-1)], exactly when the name is "xgb" and the library is there,
    and [RandomForestClassifier(n_estimators=300, random_state=42)] in
    every other case. *)
Theorem get_model_selection G name w :
  ∃ l spec,
    get_model G name w =
    (World (<[l:=OClassifier spec None]> (heap w)) (np_random w) (stdout w)
           (files w) (calls w), Ok l)
    ∧ (l ∉ dom (heap w))
    ∧ (∀ l', l' ∈ dom (heap w) →
             (<[l:=OClassifier spec None]> (heap w)) !! l' = heap w !! l')
    ∧ (is_random_forest spec = false ↔
       name = "xgb" ∧ XGB_AVAILABLE G = true)
    ∧ (is_random_forest spec = false →
       spec = XGBClassifier 300 6 (1 # 10) (-1))
    ∧ (is_random_forest spec = true → spec = RandomForestClassifier 300 42).
Proof.
  unfold get_model, new.
  assert (∀ spec l', l' ∈ dom (heap w) →
            (<[fresh (dom (heap w)):=OClassifier spec None]> (heap w)) !! l'
            = heap w !! l') as Hold.
  { intros spec l' Hl'. apply lookup_insert_ne. intros <-.
    by apply (is_fresh (dom (heap w))). }
  destruct (String.eqb_spec name "xgb") as [->|Hne];
    destruct (XGB_AVAILABLE G); cbn; do 2 eexists;
    (split; [reflexivity|]); (split; [apply is_fresh|]);
    (split; [apply Hold|]); cbn; intuition congruence.
Qed.

(** X1. Running the file never gets past its own top level, in any
    environment: the first unconditional import that is not installed
    raises [ModuleNotFoundError] for that module; when all ten are there,
    the guard raises [NameError] for [_name_], whether or not the two
    optional packages are installed.  In every case the world is left as it
    was. *)
Theorem run_script_outcome installed file w :
  run_script installed file w =
  (w, Raise match first_missing installed with
            | Some module => ModuleNotFoundError module
            | None => NameError "_name_"
            end).
Proof.
  unfold run_script, first_missing, required_imports. rewrite bind_unfold.
  cbn [exec_imports fmap list_fmap List.find fst negb].
  repeat (destruct (installed _); cbn [negb]; [|reflexivity]).
  cbn. unfold xgb_guard, smote_guard.
  destruct (installed "xgboost"), (installed "imblearn.over_sampling");
    vm_compute; reflexivity.
Qed.

(** X2. After the two guarded imports and the six function definitions,
    whatever the namespace held before, the globals the functions read are:
    [XGB_AVAILABLE] true exactly when xgboost imports, [SMOTE] the class
    when imbalanced-learn imports and [None] otherwise. *)
Theorem module_flags_reflect_the_environment installed ns :
  globals_of
    (bind_all ((λ f, (f, VFunction f)) <$> function_defs)
       (smote_guard installed (xgb_guard installed ns)))
  = {| XGB_AVAILABLE := installed "xgboost";
       SMOTE := if installed "imblearn.over_sampling"
                then Some imblearn_SMOTE else None |}.
Proof.
  unfold globals_of, bind_all, function_defs, smote_guard, xgb_guard.
  cbn [foldl fmap list_fmap fst snd].
  destruct (installed "xgboost"), (installed "imblearn.over_sampling");
    f_equal;
    repeat (rewrite lookup_insert_ne by discriminate);
    rewrite ?lookup_insert_eq; reflexivity.
Qed.

Lemma select_dtypes_partition X :
  (select_dtypes_include_number X ++ select_dtypes_exclude_number X)%list
    ≡ₚ X.*1
  ∧ sublist (select_dtypes_include_number X) X.*1
  ∧ sublist (select_dtypes_exclude_number X) X.*1.
Proof.
  unfold select_dtypes_include_number, select_dtypes_exclude_number.
  induction X as [|[c col] X (IHp & IHn & IHc)]; cbn.
  - repeat split; constructor.
  - destruct (is_number col); cbn.
    + split; [by constructor|]. split; by constructor.
    + split; [|split; by constructor].
      rewrite <- Permutation_middle. by constructor.
Qed.

(** X5. [build_preprocessor] returns a new, unfitted transformer whose two
    column lists together hold every column of the table exactly once,
    each list in the table's order; objects already in the store are left
    as they were. *)
Theorem build_preprocessor_covers_every_column X w :
  ∃ p num cat,
    (build_preprocessor X w).2 = Ok p
    ∧ heap (build_preprocessor X w).1 !! p
      = Some (OColumnTransformer
                [("num", StandardScaler, num);
                 ("cat", OneHotEncoder HU_ignore, cat)] None)
    ∧ (num ++ cat)%list ≡ₚ X.*1
    ∧ sublist num X.*1
    ∧ sublist cat X.*1
    ∧ (∀ l, l ∈ dom (heap w) →
            heap (build_preprocessor X w).1 !! l = heap w !! l).
Proof.
  eexists _, _, _. unfold build_preprocessor, new. cbn.
  split; [reflexivity|]. split; [apply lookup_insert_eq|].
  destruct (select_dtypes_partition X) as (Hp & Hn & Hc).
  split; [exact Hp|]. split; [exact Hn|]. split; [exact Hc|].
  intros l Hl. apply lookup_insert_ne. intros <-.
  by apply (is_fresh (dom (heap w))).
Qed.

(** X13. A pipeline assembled from what [build_preprocessor] and
    [get_model] return, without [train], cannot be evaluated: [evaluate]
    raises [NotFittedError] at the preprocessing stage, prints nothing and
    writes nothing. *)
Theorem untrained_pipeline_cannot_be_evaluated G name X X_test y_test w :
  let c :=
    p ← build_preprocessor X;
    m ← get_model G name;
    pipe ← Pipeline [("prep", p); ("clf", m)];
    evaluate pipe X_test y_test in
  (c w).2 = Raise (NotFittedError "ColumnTransformer")
  ∧ stdout (c w).1 = stdout w
  ∧ files (c w).1 = files w.
Proof.
  cbn zeta. unfold build_preprocessor, get_model.
  set (o_p := OColumnTransformer _ None).
  assert (∀ spec,
            let c := p ← new o_p;
                     m ← new (OClassifier spec None);
                     pipe ← Pipeline [("prep", p); ("clf", m)];
                     evaluate pipe X_test y_test in
            (c w).2 = Raise (NotFittedError "ColumnTransformer")
            ∧ stdout (c w).1 = stdout w ∧ files (c w).1 = files w) as Hany.
  { intros spec. cbn zeta. unfold Pipeline, new. rewrite !bind_unfold. cbn.
    set (p := fresh (dom (heap w))).
    set (m := fresh (dom (<[p:=o_p]> (heap w)))).
    set (pipe := fresh (dom (<[m:=OClassifier spec None]>
                               (<[p:=o_p]> (heap w))))).
    assert (m ≠ p) as Hmp.
    { pose proof (is_fresh (dom (<[p:=o_p]> (heap w)))) as Hfr.
      fold m in Hfr. rewrite dom_insert_L in Hfr. set_solver. }
    assert (pipe ≠ p ∧ pipe ≠ m) as [Hpp Hpm].
    { pose proof (is_fresh (dom (<[m:=OClassifier spec None]>
                                 (<[p:=o_p]> (heap w))))) as Hfr.
      fold pipe in Hfr. rewrite !dom_insert_L in Hfr. set_solver. }
    exec. rewrite lookup_insert_eq. cbn.
    rewrite !lookup_insert_ne by done. rewrite lookup_insert_eq. cbn.
    repeat split; reflexivity. }
  destruct (String.eqb name "xgb" && XGB_AVAILABLE G); apply Hany.
Qed.

(** X3. [generate_data] reseeds numpy's global generator on every call:
    its table and the generator state it leaves do not depend on the state
    it finds, so two calls in a row return the same table; it touches
    neither the store, the console nor the files. *)
Theorem generate_data_reseeds n w :
  ((a ← generate_data n; b ← generate_data n; mret (a, b)) w).2
  = rbind (generate_data n w).2 (λ a, Ok (a, a))
  ∧ (∀ w', (generate_data n w').2 = (generate_data n w).2
           ∧ np_random (generate_data n w').1
             = np_random (generate_data n w).1)
  ∧ heap (generate_data n w).1 = heap w
  ∧ stdout (generate_data n w).1 = stdout w
  ∧ files (generate_data n w).1 = files w.
Proof.
  rewrite bind_unfold, !generate_data_closed. cbn.
  split; [|split; [|done]].
  - remember (generate_data_pure n) as r eqn:E.
    destruct r as [[e|df] s]; cbn; [reflexivity|].
    rewrite bind_unfold, generate_data_closed, <- E. reflexivity.
  - intros w'. rewrite generate_data_closed. done.
Qed.

(** X8. [train] is not all-or-nothing: when the preprocessor fits but the
    rebalancer or the classifier then raises, [train] raises that
    exception, and the store differs from the one before the call in one
    place only, the preprocessor, which stays fitted; the classifier is
    as it was and no pipeline was made. *)
Theorem train_failure_leaves_preprocessor_fitted
    G X y p m w ct f0 spec fm0 f Xt e :
  heap w !! p = Some (OColumnTransformer ct f0) →
  heap w !! m = Some (OClassifier spec fm0) →
  ct_fit_transform ct X = Ok (f, Xt) →
  train_outcome G ct spec X y = Raise e →
  (train G X y p m w).2 = Raise e
  ∧ heap (train G X y p m w).1
    = <[p:=OColumnTransformer ct (Some f)]> (heap w).
Proof.
  intros Hp Hm Eft.
  assert (p ≠ m) as Hpm by (intros ->; congruence).
  unfold train_outcome, rebalance, train, fit_transform, fit, Pipeline, new,
    deref, store, log, lift, mbind, M_bind, mret, M_ret.
  cbn. rewrite Hp. cbn. rewrite Eft. cbn.
  destruct (SMOTE G) as [[]|]; cbn.
  - destruct (smote_fit_resample 42 Xt y) as [e'|[Xr yr]]; cbn.
    { intros [= ->]. done. }
    rewrite lookup_insert_ne, Hm by done. cbn.
    destruct (estimator_fit spec Xr yr) as [e'|fm]; cbn; [|discriminate].
    intros [= ->]. done.
  - rewrite lookup_insert_ne, Hm by done. cbn.
    destruct (estimator_fit spec Xt y) as [e'|fm]; cbn; [|discriminate].
    intros [= ->]. done.
Qed.

(** X12. [evaluate] prints the classification report before it computes
    the ROC AUC: when [roc_auc_score] raises, [evaluate] raises that
    exception, and the console has grown by the report alone. *)
Theorem evaluate_report_survives_auc_failure
    pipe p m ct spec f fm X_test y_test w y_pred y_prob report e :
  heap w !! pipe = Some (OPipeline [("prep", p); ("clf", m)]) →
  heap w !! p = Some (OColumnTransformer ct (Some f)) →
  heap w !! m = Some (OClassifier spec (Some fm)) →
  scores_outcome f fm X_test = Ok (y_pred, y_prob) →
  classification_report y_test y_pred = Ok report →
  roc_auc_score y_test y_prob = Raise e →
  (evaluate pipe X_test y_test w).2 = Raise e
  ∧ stdout (evaluate pipe X_test y_test w).1 = (stdout w ++ [report])%list.
Proof.
  intros Hpipe Hp Hm Es Er Ea.
  pose proof (evaluate_scores_runs pipe p m ct spec f fm X_test w
                Hpipe Hp Hm) as Hs.
  rewrite Es in Hs. destruct Hs as [cs Hs].
  unfold evaluate. rewrite (bind_ok _ _ _ _ _ Hs).
  unfold lift, print, mbind, M_bind. cbn. rewrite Er. cbn. rewrite Ea.
  done.
Qed.

Lemma column_of_short_row j (a : matrix) i row :
  a !! i = Some row → (length row ≤ j)%nat →
  column_of j a = Raise (IndexError "index is out of bounds for axis 1").
Proof.
  unfold column_of. revert i. induction a as [|r a IH]; intros i Hi Hlen;
    [done|]. cbn [rmapM].
  destruct (r !! j) as [x|] eqn:Er; [|reflexivity]. cbn.
  destruct i as [|i]; cbn in Hi.
  - injection Hi as ->. apply lookup_lt_Some in Er. lia.
  - by rewrite (IH i Hi Hlen).
Qed.

(** X11. [evaluate] takes column 1 of [predict_proba]: when the classifier
    answers with fewer than two columns (it saw one class only), [evaluate]
    raises [IndexError] and nothing has been printed. *)
Theorem evaluate_needs_two_probability_columns
    pipe p m ct spec f fm X_test y_test w Xp y_pred proba i row :
  heap w !! pipe = Some (OPipeline [("prep", p); ("clf", m)]) →
  heap w !! p = Some (OColumnTransformer ct (Some f)) →
  heap w !! m = Some (OClassifier spec (Some fm)) →
  ct_transform f X_test = Ok Xp →
  estimator_predict fm Xp = Ok y_pred →
  estimator_predict_proba fm Xp = Ok proba →
  proba !! i = Some row → (length row ≤ 1)%nat →
  (evaluate pipe X_test y_test w).2
  = Raise (IndexError "index is out of bounds for axis 1")
  ∧ stdout (evaluate pipe X_test y_test w).1 = stdout w.
Proof.
  intros Hpipe Hp Hm Et Ep Epp Hrow Hlen.
  pose proof (evaluate_scores_runs pipe p m ct spec f fm X_test w
                Hpipe Hp Hm) as Hs.
  unfold scores_outcome in Hs. rewrite Et in Hs. cbn in Hs.
  rewrite Ep in Hs. cbn in Hs. rewrite Epp in Hs. cbn in Hs.
  rewrite (column_of_short_row 1 proba i row Hrow Hlen) in Hs. cbn in Hs.
  destruct (evaluate_scores_frame pipe X_test) as (_ & _ & Hout & _).
  specialize (Hout w).
  unfold evaluate. rewrite bind_unfold.
  destruct (evaluate_scores pipe X_test w) as [w1 [e|a]]; cbn in *;
    [|discriminate]. split; [by injection Hs as -> | exact Hout].
Qed.

(** X10. [evaluate] looks the stages up by name: on a pipeline without a
    step called "prep" it raises [KeyError("prep")] before any library
    call, leaving the world as it was. *)
Theorem evaluate_requires_the_step_names pipe steps X_test y_test w :
  heap w !! pipe = Some (OPipeline steps) →
  assoc "prep" steps = None →
  evaluate pipe X_test y_test w = (w, Raise (KeyError "prep")).
Proof.
  intros Hpipe Hprep. exec. rewrite Hpipe. cbn. rewrite Hprep. reflexivity.
Qed.

Lemma preserves_no_write {A} (c : M A) :
  preserves files c → no_write_on_raise c.
Proof. intros H w e _. apply H. Qed.

Lemma no_write_bind {A B} (c : M A) (k : A → M B) :
  preserves files c → (∀ a, no_write_on_raise (k a)) →
  no_write_on_raise (c ≫= k).
Proof.
  intros Hc Hk w e. rewrite bind_unfold. specialize (Hc w).
  destruct (c w) as [w1 [e'|a]]; cbn in *; [intros _; exact Hc|].
  intros E. rewrite (Hk a w1 e E). exact Hc.
Qed.

Lemma generate_data_files n : preserves files (generate_data n).
Proof. intros w. by rewrite generate_data_closed. Qed.

Lemma train_test_split_call_files X y stratify test_size :
  preserves files (train_test_split_call X y stratify test_size).
Proof.
  intros w. unfold train_test_split_call.
  by destruct (train_test_split X y stratify test_size (np_random w)).
Qed.

Lemma joblib_dump_no_write pipe file : no_write_on_raise (joblib_dump pipe file).
Proof.
  intros w e. unfold joblib_dump, log, write_file, mbind, M_bind. cbn.
  destruct (pickle (heap w) pipe); cbn; [done | discriminate].
Qed.

(** X15. A run of [main] that raises has written no file: the file system
    is as it was before the run. *)
Theorem main_writes_no_file_when_it_raises G w e :
  (main G w).2 = Raise e → files (main G w).1 = files w.
Proof.
  revert w e. change (no_write_on_raise (main G)). unfold main.
  apply no_write_bind; [apply generate_data_files | intros df].
  apply no_write_bind; [frame | intros X].
  apply no_write_bind; [frame | intros y].
  apply no_write_bind;
    [apply train_test_split_call_files
    | intros [[[X_train X_test] y_train] y_test]].
  apply no_write_bind; [frame | intros _].
  apply no_write_bind; [unfold build_preprocessor; frame | intros p].
  apply no_write_bind;
    [unfold get_model; destruct (_ && _); frame | intros m].
  apply no_write_bind; [frame | intros _].
  apply no_write_bind; [apply train_frame | intros pipe].
  apply no_write_bind; [frame | intros _].
  apply no_write_bind; [apply evaluate_frame | intros _].
  apply no_write_bind; [frame | intros _].
  apply joblib_dump_no_write.
Qed.

(** X16. A run of [main] that completes replaces whatever
    "fraud_model.pkl" held by a two-stage pipeline: "prep", the num/cat
    plan with its fitted state, and "clf", the random forest of 300 trees
    and seed 42 with its fitted state, whatever the module globals are;
    every other file is as before. *)
Theorem main_stores_the_fitted_stages G w :
  (main G w).2 = Ok () →
  ∃ num cat f fm,
    files (main G w).1 =
    <["fraud_model.pkl":=
        PkPipeline
          [("prep", PkColumnTransformer
                      [("num", StandardScaler, num);
                       ("cat", OneHotEncoder HU_ignore, cat)] (Some f));
           ("clf", PkClassifier (RandomForestClassifier 300 42) (Some fm))]]>
      (files w).
Proof.
  intros E. pose proof (main_runs G w) as H.
  destruct (main_outcome G) as [e|[[a [report auc]] s]] eqn:Eo.
  { rewrite E in H. discriminate H. }
  destruct H as (w' & Em & Ef & _). rewrite Em. cbn. rewrite Ef.
  unfold main_outcome in Eo.
  destruct (generate_data_pure 1000) as [[?|df] s0]; cbn in Eo;
    [discriminate|].
  destruct (df_drop df ["is_fraud"]) as [?|X]; cbn in Eo; [discriminate|].
  destruct (df_getitem df "is_fraud") as [?|y]; cbn in Eo; [discriminate|].
  destruct (train_test_split X y (Some y) (25 # 100) s0)
    as [[?|[[[X_train X_test] y_train] y_test]] s']; cbn in Eo;
    [discriminate|].
  destruct (train_outcome G (plan_of X_train) (RandomForestClassifier 300 42)
              X_train y_train) as [?|[[[f Xt] Xryr] fm]]; cbn in Eo;
    [discriminate|].
  destruct (evaluate_outcome f fm X_test y_test) as [?|texts]; cbn in Eo;
    [discriminate|].
  injection Eo as <- _ _. by eexists _, _, f, fm.
Qed.

Lemma evaluate_trace pipe p m ct spec f fm X_test y_test w report auc :
  heap w !! pipe = Some (OPipeline [("prep", p); ("clf", m)]) →
  heap w !! p = Some (OColumnTransformer ct (Some f)) →
  heap w !! m = Some (OClassifier spec (Some fm)) →
  evaluate_outcome f fm X_test y_test = Ok (report, auc) →
  ∃ Xp, ct_transform f X_test = Ok Xp
        ∧ evaluate pipe X_test y_test w =
          (World (heap w) (np_random w)
                 (stdout w ++ [report; "ROC AUC: " ++ float_str auc])
                 (files w)
                 (calls w ++ [Call_transform p X_test; Call_predict m Xp;
                              Call_predict_proba m Xp]), Ok ()).
Proof.
  intros Hpipe Hp Hm. unfold evaluate_outcome, scores_outcome. exec.
  rewrite Hpipe. cbn. rewrite Hp. cbn.
  destruct (ct_transform f X_test) as [e|Xp]; cbn; [discriminate|].
  rewrite Hpipe. cbn. rewrite Hm. cbn.
  destruct (estimator_predict fm Xp) as [e|y_pred]; cbn; [discriminate|].
  rewrite Hm. cbn.
  destruct (estimator_predict_proba fm Xp) as [e|proba]; cbn;
    [discriminate|].
  destruct (column_of 1 proba) as [e|y_prob]; cbn; [discriminate|].
  destruct (classification_report y_test y_pred) as [e|report']; cbn;
    [discriminate|].
  destruct (roc_auc_score y_test y_prob) as [e|auc']; cbn; [discriminate|].
  intros [= -> ->]. exists Xp. split; [reflexivity|].
  rewrite <- !app_assoc. reflexivity.
Qed.

(** X17. The library calls of a completed run of [main], in order:
    fit-transform on the training partition, the rebalancing call when the
    rebalancer is there, [fit], then [transform], [predict] and
    [predict_proba] on the held-out partition, then the dump.  The held-out
    partition never reaches a fitting call. *)
Theorem main_fits_only_on_the_training_partition G w :
  (main G w).2 = Ok () →
  ∃ df X y s' X_train X_test y_train y_test p m pipe Xt Xr yr Xp,
    (generate_data 1000 w).2 = Ok df
    ∧ df_drop df ["is_fraud"] = Ok X
    ∧ df_getitem df "is_fraud" = Ok y
    ∧ train_test_split X y (Some y) (25 # 100)
        (np_random (generate_data 1000 w).1)
      = (Ok (X_train, X_test, y_train, y_test), s')
    ∧ calls (main G w).1 =
      (calls w ++ [Call_fit_transform p X_train]
         ++ rebalance_calls G Xt y_train
         ++ [Call_fit m Xr yr; Call_transform p X_test; Call_predict m Xp;
             Call_predict_proba m Xp; Call_dump pipe "fraud_model.pkl"])%list.
Proof.
  intros Hok. remember (main G w) as out eqn:Eout.
  unfold main in Eout.
  rewrite bind_unfold, generate_data_closed in Eout.
  rewrite generate_data_closed. cbn.
  destruct (generate_data_pure 1000) as [[e|df] s]; cbn in *;
    [by subst|].
  rewrite bind_unfold in Eout. unfold lift in Eout. cbn in Eout.
  destruct (df_drop df ["is_fraud"]) as [e|X] eqn:Ed; cbn in Eout;
    [by subst|].
  rewrite bind_unfold in Eout. cbn in Eout.
  destruct (df_getitem df "is_fraud") as [e|y] eqn:Eg; cbn in Eout;
    [by subst|].
  rewrite bind_unfold in Eout. unfold train_test_split_call in Eout.
  cbn in Eout.
  destruct (train_test_split X y (Some y) (25 # 100) s)
    as [[e|[[[X_train X_test] y_train] y_test]] s'] eqn:Es; cbn in Eout;
    [by subst|].
  rewrite bind_unfold in Eout. unfold print at 1 in Eout. cbn in Eout.
  rewrite bind_unfold in Eout. unfold build_preprocessor, new in Eout.
  cbn in Eout. fold (plan_of X_train) in Eout.
  rewrite bind_unfold in Eout. cbn in Eout.
  rewrite bind_unfold in Eout. unfold print at 1 in Eout. cbn in Eout.
  set (p := fresh (dom (heap w))) in *.
  set (o_p := OColumnTransformer (plan_of X_train) None) in *.
  set (m := fresh (dom (<[p:=o_p]> (heap w)))) in *.
  set (spec := RandomForestClassifier 300 42) in *.
  assert (m ≠ p) as Hmp.
  { pose proof (is_fresh (dom (<[p:=o_p]> (heap w)))) as Hfr.
    fold m in Hfr. rewrite dom_insert_L in Hfr. set_solver. }
  match type of Eout with
  | _ = (_ ≫= _) ?w0 => set (w2 := w0) in *
  end.
  assert (heap w2 !! p = Some o_p) as Hp
    by (cbn; rewrite lookup_insert_ne by done; apply lookup_insert_eq).
  assert (heap w2 !! m = Some (OClassifier spec None)) as Hm
    by (cbn; apply lookup_insert_eq).
  pose proof (train_runs G X_train y_train p m w2 _ _ _ _ Hp Hm) as Hrun.
  destruct (train_outcome G (plan_of X_train) spec X_train y_train)
    as [e|[[[f Xt] [Xr yr]] fm]].
  { subst out. rewrite (bind_raise_snd _ _ _ _ Hrun) in Hok. discriminate. }
  destruct Hrun as (pipe & Hfresh & Hpp & Hpm & Etrain).
  rewrite (bind_ok _ _ _ _ _ Etrain) in Eout.
  rewrite bind_unfold in Eout. unfold print at 1 in Eout. cbn in Eout.
  match type of Eout with
  | _ = (_ ≫= _) ?w0 => set (w3 := w0) in *
  end.
  assert (heap w3 !! pipe = Some (OPipeline [("prep", p); ("clf", m)]))
    as Hpipe3 by (cbn; apply lookup_insert_eq).
  assert (heap w3 !! p = Some (OColumnTransformer (plan_of X_train) (Some f)))
    as Hp3
    by (cbn; rewrite !lookup_insert_ne by done; apply lookup_insert_eq).
  assert (heap w3 !! m = Some (OClassifier spec (Some fm))) as Hm3
    by (cbn; rewrite lookup_insert_ne by done; apply lookup_insert_eq).
  pose proof (evaluate_runs pipe p m _ _ f fm X_test y_test w3
                Hpipe3 Hp3 Hm3) as Hev.
  pose proof (evaluate_trace pipe p m (plan_of X_train) spec f fm
                X_test y_test w3) as Htr.
  destruct (evaluate_outcome f fm X_test y_test) as [e|[report auc]].
  { subst out. rewrite (bind_raise_snd _ _ _ _ Hev) in Hok. discriminate. }
  destruct (Htr report auc Hpipe3 Hp3 Hm3 eq_refl) as (Xp & _ & Heval).
  rewrite (bind_ok _ _ _ _ _ Heval) in Eout.
  rewrite bind_unfold in Eout. unfold print at 1 in Eout. cbn in Eout.
  erewrite joblib_dump_pipeline in Eout by (cbn; eassumption).
  cbn in Eout. subst out. cbn.
  exists df, X, y, s', X_train, X_test, y_train, y_test, p, m, pipe, Xt, Xr,
    yr, Xp.
  repeat split; try assumption.
  rewrite <- !app_assoc. cbn. rewrite <- !app_assoc. reflexivity.
Qed.

Lemma evaluate_console_prefix pipe X y w :
  ∃ report auc k,
    (k ≤ 2)%nat
    ∧ stdout (evaluate pipe X y w).1 =
      (stdout w
         ++ take k [report; ("ROC AUC: " ++ float_str auc)%string])%list
    ∧ ((evaluate pipe X y w).2 = Ok () → k = 2%nat).
Proof.
  unfold evaluate. rewrite bind_unfold.
  destruct (evaluate_scores_frame pipe X) as (_ & _ & Hs & _).
  specialize (Hs w).
  destruct (evaluate_scores pipe X w) as [w1 [e|[y_pred y_prob]]];
    cbn in Hs |- *.
  { exists "", 0%Q, 0%nat. rewrite app_nil_r.
    split; [lia|]. split; [done | discriminate]. }
  unfold lift, print, mbind, M_bind. cbn.
  destruct (classification_report y y_pred) as [e|report]; cbn.
  { exists "", 0%Q, 0%nat. rewrite app_nil_r.
    split; [lia|]. split; [done | discriminate]. }
  destruct (roc_auc_score y y_prob) as [e|auc]; cbn.
  - exists report, 0%Q, 1%nat. rewrite Hs.
    split; [lia|]. split; [done | discriminate].
  - exists report, auc, 2%nat. rewrite Hs, <- app_assoc.
    split; [lia|]. split; done.
Qed.

(** X9. [evaluate] is read-only: whether it returns or raises, the store,
    the files and the generator are as before, and the console has grown
    by an initial segment of the two items report, "ROC AUC: <float>"
    (both of them when it returns). *)
Theorem evaluate_is_read_only pipe X y w :
  heap (evaluate pipe X y w).1 = heap w
  ∧ files (evaluate pipe X y w).1 = files w
  ∧ np_random (evaluate pipe X y w).1 = np_random w
  ∧ ∃ report auc k,
      (k ≤ 2)%nat
      ∧ stdout (evaluate pipe X y w).1 =
        (stdout w
           ++ take k [report; ("ROC AUC: " ++ float_str auc)%string])%list
      ∧ ((evaluate pipe X y w).2 = Ok () → k = 2%nat).
Proof.
  destruct (evaluate_frame pipe X y) as (Hh & Hr & Hf).
  split; [apply Hh|]. split; [apply Hf|]. split; [apply Hr|].
  apply evaluate_console_prefix.
Qed.

Lemma joblib_dump_stdout pipe file : preserves stdout (joblib_dump pipe file).
Proof.
  intros w. unfold joblib_dump, log, write_file, mbind, M_bind. cbn.
  by destruct (pickle (heap w) pipe).
Qed.

(** X14. Whatever happens during a run of [main], what it has printed is
    an initial segment of the six items "✔ Building pipeline",
    "✔ Training model", "✔ Evaluating model", report, "ROC AUC: <float>",
    "✔ Saving model". *)
Theorem main_console_is_an_initial_segment G w :
  ∃ report auc k,
    stdout (main G w).1 =
    (stdout w
       ++ take k ["✔ Building pipeline"; "✔ Training model";
                  "✔ Evaluating model"; report;
                  ("ROC AUC: " ++ float_str auc)%string;
                  "✔ Saving model"])%list.
Proof.
  unfold main. rewrite bind_unfold, generate_data_closed. cbn.
  destruct (generate_data_pure 1000) as [[e|df] s]; cbn;
    [exists "", 0%Q, 0%nat; by rewrite app_nil_r|].
  rewrite bind_unfold. unfold lift. cbn.
  destruct (df_drop df ["is_fraud"]) as [e|X]; cbn;
    [exists "", 0%Q, 0%nat; by rewrite app_nil_r|].
  rewrite bind_unfold. cbn.
  destruct (df_getitem df "is_fraud") as [e|y]; cbn;
    [exists "", 0%Q, 0%nat; by rewrite app_nil_r|].
  rewrite bind_unfold. unfold train_test_split_call. cbn.
  destruct (train_test_split X y (Some y) (25 # 100) s)
    as [[e|[[[X_train X_test] y_train] y_test]] s']; cbn;
    [exists "", 0%Q, 0%nat; by rewrite app_nil_r|].
  rewrite bind_unfold. unfold print at 1. cbn.
  rewrite bind_unfold. unfold build_preprocessor, new. cbn.
  rewrite bind_unfold. cbn.
  rewrite bind_unfold. unfold print at 1. cbn.
  rewrite bind_unfold.
  match goal with
  | |- context [train G X_train y_train ?p ?m ?w0] =>
      destruct (train_frame G X_train y_train p m) as (_ & Htrain & _);
      specialize (Htrain w0);
      destruct (train G X_train y_train p m w0) as [w3 [e|pipe]];
      cbn in Htrain |- *
  end.
  { exists "", 0%Q, 2%nat. rewrite Htrain, <- app_assoc. done. }
  rewrite bind_unfold. unfold print at 1. cbn.
  rewrite bind_unfold.
  match goal with
  | |- context [evaluate pipe X_test y_test ?w0] =>
      destruct (evaluate_console_prefix pipe X_test y_test w0)
        as (report & auc & k & Hk & Hout & Hdone);
      destruct (evaluate pipe X_test y_test w0) as [w4 [e|[]]];
      cbn in Hout, Hdone |- *
  end.
  { exists report, auc, (3 + k)%nat. rewrite Hout, Htrain.
    rewrite <- !app_assoc. cbn. do 4 f_equal.
    destruct k as [|[|[|k]]]; [done..|lia]. }
  rewrite (Hdone eq_refl) in Hout. cbn in Hout.
  rewrite bind_unfold. unfold print at 1. cbn.
  match goal with
  | |- context [joblib_dump pipe ?file ?w0] =>
      rewrite (joblib_dump_stdout pipe file w0)
  end.
  cbn. exists report, auc, 6%nat. rewrite Hout, Htrain.
  rewrite <- !app_assoc. reflexivity.
Qed.

Lemma generate_data_columns `{!NumpyContract} n :
  ∃ amount payment_method device_type hour is_fraud,
    (generate_data_pure n).1 =
    Ok [("amount", FloatCol amount);
        ("payment_method", ObjCol payment_method);
        ("device_type", ObjCol device_type);
        ("hour", IntCol hour);
        ("is_fraud", IntCol is_fraud)]
    ∧ length amount = n ∧ length is_fraud = n.
Proof.
  unfold generate_data_pure.
  pose proof (exponential_length (200 # 1) n (np_random_seed 42)) as La.
  destruct (np_random_exponential _ _ _) as [amount s1]. cbn in La.
  pose proof (choice_length ["CARD"; "UPI"; "NETBANKING"] n s1) as Lp.
  destruct (np_random_choice _ _ s1) as [pm s2]. cbn in Lp.
  pose proof (choice_length ["MOBILE"; "DESKTOP"] n s2) as Ld.
  destruct (np_random_choice _ _ s2) as [dt s3]. cbn in Ld.
  pose proof (randint_length 0 24 n s3) as Lh.
  destruct (np_random_randint _ _ _ s3) as [hour s4]. cbn in Lh.
  pose proof (choice_p_length [0; 1]%Z [(95 # 100)%Q; (5 # 100)%Q] n s4)
    as Lf.
  destruct (np_random_choice_p _ _ _ s4) as [fraud s5]. cbn in Lf.
  exists (np_round 2 <$> amount), pm, dt, hour, fraud. cbn.
  split; [|by rewrite length_fmap].
  unfold pd_DataFrame, col_length. cbn.
  by rewrite !length_fmap, La, Lp, Ld, Lh, Lf, !Nat.eqb_refl.
Qed.

Lemma df_drop_lookup X names X' c :
  df_drop X names = Ok X' →
  df_lookup X' c =
  if existsb (String.eqb c) names then None else df_lookup X c.
Proof.
  unfold df_drop. destruct (List.find _ names); [discriminate|].
  intros [= <-]. induction X as [|[k col] X IH]; cbn.
  - by destruct (existsb _ names).
  - destruct (String.eqb_spec k c) as [->|Hkc].
    + destruct (existsb (String.eqb c) names) eqn:Ec; cbn; [exact IH|].
      by rewrite String.eqb_refl.
    + destruct (existsb (String.eqb k) names); cbn; [exact IH|].
      destruct (String.eqb_spec k c); [done | exact IH].
Qed.

(** X4. On the table [generate_data(n)] returns, the two statements of
    [main] that split features and label cannot raise [KeyError]: the
    features are the four columns amount, payment_method, device_type and
    hour, unchanged and of [n] rows, without the label; the plan built on
    them scales amount and hour and encodes payment_method and
    device_type. *)
Theorem features_exclude_the_label `{!NumpyContract} n w :
  ∃ df X y,
    (generate_data n w).2 = Ok df
    ∧ df_drop df ["is_fraud"] = Ok X
    ∧ df_getitem df "is_fraud" = Ok y
    ∧ X.*1 = ["amount"; "payment_method"; "device_type"; "hour"]
    ∧ df_lookup X "is_fraud" = None
    ∧ (∀ c, c ≠ "is_fraud" → df_lookup X c = df_lookup df c)
    ∧ select_dtypes_include_number X = ["amount"; "hour"]
    ∧ select_dtypes_exclude_number X = ["payment_method"; "device_type"]
    ∧ nrows X = n ∧ col_length y = n.
Proof.
  rewrite generate_data_closed. cbn.
  destruct (generate_data_columns n)
    as (amount & pm & dt & hour & fraud & -> & La & Lf).
  set (df := [("amount", FloatCol amount); ("payment_method", ObjCol pm);
              ("device_type", ObjCol dt); ("hour", IntCol hour);
              ("is_fraud", IntCol fraud)]).
  exists df,
    (List.filter (λ kc, negb (existsb (String.eqb kc.1) ["is_fraud"])) df),
    (IntCol fraud).
  split; [reflexivity|].
  split; [reflexivity|]. split; [reflexivity|].
  split; [reflexivity|]. split; [reflexivity|].
  split.
  { intros c Hc. rewrite (df_drop_lookup df ["is_fraud"] _ c eq_refl).
    cbn [existsb]. destruct (String.eqb_spec c "is_fraud"); [done|].
    reflexivity. }
  split; [reflexivity|]. split; [reflexivity|].
  unfold col_length. cbn. by rewrite !length_fmap.
Qed.

(** X18. Every row the fitted plan of [build_preprocessor(X)] produces has
    one value per numeric column of [X] plus one indicator per category
    observed in each of its other columns. *)
Theorem transformed_rows_have_the_planned_width X f X' M row :
  ct_fit (plan_of X) X = Ok f →
  conforms X X' = true →
  ct_transform f X' = Ok M →
  row ∈ M →
  length row =
  length (select_dtypes_include_number X)
  + sum_list_with (ncats X) (select_dtypes_exclude_number X).
Proof.
  intros Hfit Hconf HM [i Hrow]%list_elem_of_lookup_1.
  destruct (ct_transform_plan X f X' Hfit Hconf) as (M' & HM' & Hlen & Hrows).
  rewrite HM in HM'. injection HM' as <-.
  assert (i < nrows X') as Hi
    by (rewrite <- Hlen; by eapply lookup_lt_Some).
  destruct (ct_transform_row_plan X f X' i Hfit Hconf Hi)
    as (scaled & cs & ccols & Erow & Hscaled & Hcc & Hcs).
  rewrite (Hrows i row Hrow) in Erow. injection Erow as ->.
  rewrite length_app, Hscaled. f_equal.
  pose proof (blocks_offset X _ ccols cs
                (length (select_dtypes_exclude_number X)) Hcc) as Hoff.
  rewrite firstn_all in Hoff. rewrite <- Hoff.
  - f_equal. f_equal. symmetry. apply take_ge.
    rewrite length_zip_with, length_fmap.
    apply Forall2_length in Hcc, Hcs. lia.
  - by apply Forall2_length in Hcs.
Qed.

(** [cell_compare] is a strict order up to its own equality. *)
Lemma string_compare_lt_trans a b c :
  String.compare a b = Lt → String.compare b c = Lt →
  String.compare a c = Lt.
Proof.
  intros H1%String_as_OT.cmp_lt H2%String_as_OT.cmp_lt.
  apply String_as_OT.cmp_lt. by eapply String_as_OT.lt_trans.
Qed.

Lemma string_compare_refl s : String.compare s s = Eq.
Proof. by apply String_as_OT.cmp_eq. Qed.

Lemma cell_compare_lt_trans a b c :
  cell_compare a b = Lt → cell_compare b c = Lt → cell_compare a c = Lt.
Proof.
  destruct a as [p|s], b as [q|t], c as [r|u]; cbn; try done.
  - rewrite <- !Qlt_alt. apply Qlt_trans.
  - apply string_compare_lt_trans.
Qed.

Lemma cell_compare_eq_lt a b c :
  cell_compare a b = Eq → cell_compare b c = Lt → cell_compare a c = Lt.
Proof.
  destruct a as [p|s], b as [q|t], c as [r|u]; cbn; try done.
  - rewrite <- Qeq_alt, <- !Qlt_alt. by intros ->.
  - by intros ->%String.compare_eq_iff.
Qed.

Lemma cell_compare_gt_lt a b :
  cell_compare a b = Gt → cell_compare b a = Lt.
Proof.
  destruct a as [p|s], b as [q|t]; cbn; try done.
  - rewrite <- Qgt_alt, <- Qlt_alt. done.
  - rewrite (String.compare_antisym t s).
    by destruct (String.compare s t).
Qed.

Lemma cell_eqb_lt v a b :
  cell_eqb v a = true → cell_compare a b = Lt → cell_eqb v b = false.
Proof.
  unfold cell_eqb. destruct (cell_compare v a) eqn:E; try done. intros _ H.
  by rewrite (cell_compare_eq_lt v a b E H).
Qed.

Lemma cell_eqb_refl v : cell_eqb v v = true.
Proof.
  unfold cell_eqb. destruct v as [q|s]; cbn.
  - by rewrite (proj1 (Qeq_alt q q) (Qeq_refl q)).
  - by rewrite string_compare_refl.
Qed.

Lemma cell_eqb_trans a b c :
  cell_eqb a b = true → cell_eqb b c = true → cell_eqb a c = true.
Proof.
  unfold cell_eqb.
  destruct (cell_compare a b) eqn:E1; try done.
  destruct (cell_compare b c) eqn:E2; try done. intros _ _.
  destruct a as [p|s], b as [q|t], c as [r|u]; cbn in *; try done.
  - apply Qeq_alt in E1, E2. by rewrite (proj1 (Qeq_alt p r) (Qeq_trans _ _ _ E1 E2)).
  - apply String.compare_eq_iff in E1, E2. subst.
    by rewrite string_compare_refl.
Qed.

Lemma insert_sorted_sorted v l :
  StronglySorted cell_lt l → StronglySorted cell_lt (insert_sorted v l).
Proof.
  induction 1 as [|x l Hl IH Hx]; cbn; [repeat constructor|].
  destruct (cell_compare v x) eqn:E.
  - by constructor.
  - constructor; [by constructor|]. constructor; [exact E|].
    eapply Forall_impl; [exact Hx|]. intros y Hy.
    by eapply cell_compare_lt_trans.
  - constructor; [exact IH|]. apply Forall_forall. intros y Hy.
    apply insert_sorted_elem in Hy as [->|Hy].
    + by apply cell_compare_gt_lt.
    + by eapply Forall_forall in Hx.
Qed.

Lemma categories_of_sorted col : StronglySorted cell_lt (categories_of col).
Proof.
  unfold categories_of. induction (cells col) as [|v l IH]; cbn;
    [constructor | by apply insert_sorted_sorted].
Qed.

Lemma insert_sorted_keeps v l c : c ∈ l → c ∈ insert_sorted v l.
Proof.
  induction l as [|x l IH]; cbn; [by intros ?%elem_of_nil|].
  destruct (cell_compare v x); intros Hc; [done | by right|].
  apply elem_of_cons in Hc as [->|Hc]; [left | right; by apply IH].
Qed.

Lemma insert_sorted_has v l :
  ∃ c, c ∈ insert_sorted v l ∧ cell_eqb v c = true.
Proof.
  induction l as [|x l (c & Hc & Hv)]; cbn.
  - exists v. split; [left | apply cell_eqb_refl].
  - destruct (cell_compare v x) eqn:E.
    + exists x. split; [left | unfold cell_eqb; by rewrite E].
    + exists v. split; [left | apply cell_eqb_refl].
    + exists c. split; [by right | done].
Qed.

Lemma categories_of_complete col v :
  v ∈ cells col → ∃ c, c ∈ categories_of col ∧ cell_eqb v c = true.
Proof.
  unfold categories_of. induction (cells col) as [|u l IH]; cbn;
    [by intros ?%elem_of_nil|].
  intros [->|Hv]%elem_of_cons; [apply insert_sorted_has|].
  destruct (IH Hv) as (c & Hc & Ec). exists c.
  split; [by apply insert_sorted_keeps | done].
Qed.

Lemma indicator_one_hot cats v c :
  StronglySorted cell_lt cats → c ∈ cats → cell_eqb v c = true →
  ∃ k c', cats !! k = Some c' ∧ cell_eqb v c' = true
          ∧ indicator cats v = <[k:=1%Q]> (repeat 0%Q (length cats)).
Proof.
  unfold indicator. induction 1 as [|x l Hl IH Hx]; [by intros ?%elem_of_nil|].
  intros Hc Hv. cbn. destruct (cell_eqb v x) eqn:Ex.
  - exists 0, x. split; [done|]. split; [done|]. cbn. f_equal.
    apply (indicator_unseen l v). intros y Hy.
    eapply cell_eqb_lt; [exact Ex|]. by eapply Forall_forall in Hx.
  - apply elem_of_cons in Hc as [->|Hc]; [congruence|].
    destruct (IH Hc Hv) as (k & c' & Hk & Hc' & Hind).
    exists (S k), c'. split; [done|]. split; [done|]. cbn. by f_equal.
Qed.

Lemma category_block X f X' M i j c col col' v :
  ct_fit (plan_of X) X = Ok f →
  conforms X X' = true →
  ct_transform f X' = Ok M →
  select_dtypes_exclude_number X !! j = Some c →
  df_lookup X c = Some col →
  df_lookup X' c = Some col' →
  cells col' !! i = Some v →
  ∃ pre post,
    M !! i = Some (pre ++ indicator (categories_of col) v ++ post)%list
    ∧ length pre =
      length (select_dtypes_include_number X)
      + sum_list_with (ncats X) (take j (select_dtypes_exclude_number X)).
Proof.
  intros Hfit Hconf HM Hj Hcol Hcol' Hv.
  destruct (ct_transform_plan X f X' Hfit Hconf) as (M' & HM' & Hlen & Hrows).
  rewrite HM in HM'. injection HM' as <-.
  assert (i < nrows X') as Hi.
  { rewrite <- (conforms_categorical_length X X' c col' Hconf);
      [|by eapply list_elem_of_lookup_2|done].
    unfold col_length. by eapply lookup_lt_Some. }
  destruct (lookup_lt_is_Some_2 M i) as [row Hrow]; [lia|].
  destruct (ct_transform_row_plan X f X' i Hfit Hconf Hi)
    as (scaled & cs & ccols & Erow & Hscaled & Hcc & Hcs).
  rewrite (Hrows i row Hrow) in Erow. injection Erow as ->.
  destruct (Forall2_lookup_l _ _ _ _ _ Hcc Hj) as (col0 & Hcol0 & Ecol0).
  rewrite Hcol in Ecol0. injection Ecol0 as <-.
  destruct (Forall2_lookup_l _ _ _ _ _ Hcs Hj)
    as (v0 & Hv0 & (col1 & E1 & Ev0)).
  rewrite Hcol' in E1. injection E1 as <-.
  rewrite Hv in Ev0. injection Ev0 as <-.
  set (blocks := zip_with indicator (categories_of <$> ccols) cs) in *.
  assert (blocks !! j = Some (indicator (categories_of col) v)) as Hblock.
  { unfold blocks. by rewrite lookup_zip_with, list_lookup_fmap, Hcol0, Hv0. }
  exists (scaled ++ concat (take j blocks))%list,
         (concat (drop (S j) blocks)).
  split.
  - rewrite Hrow. f_equal. rewrite <- app_assoc. f_equal.
    rewrite <- (take_drop_middle blocks j _ Hblock) at 1.
    by rewrite concat_app.
  - rewrite length_app, Hscaled. f_equal.
    apply blocks_offset; [done|]. by apply Forall2_length in Hcs.
Qed.

(** X19. Where a row carries, in the [j]-th categorical column, a value
    that column of [X] held at fit time, the indicators of that column in
    the output row are all zero but one, which is 1, at the position of
    the value among the sorted categories. *)
Theorem seen_category_is_one_hot X f X' M i j c col col' v u :
  ct_fit (plan_of X) X = Ok f →
  conforms X X' = true →
  ct_transform f X' = Ok M →
  select_dtypes_exclude_number X !! j = Some c →
  df_lookup X c = Some col →
  df_lookup X' c = Some col' →
  cells col' !! i = Some v →
  u ∈ cells col → cell_eqb v u = true →
  ∃ pre post k c',
    M !! i =
    Some (pre ++ <[k:=1%Q]> (repeat 0%Q (length (categories_of col)))
              ++ post)%list
    ∧ length pre =
      length (select_dtypes_include_number X)
      + sum_list_with (ncats X) (take j (select_dtypes_exclude_number X))
    ∧ categories_of col !! k = Some c'
    ∧ cell_eqb v c' = true.
Proof.
  intros Hfit Hconf HM Hj Hcol Hcol' Hv Hu Hvu.
  destruct (category_block X f X' M i j c col col' v
              Hfit Hconf HM Hj Hcol Hcol' Hv) as (pre & post & Hrow & Hpre).
  destruct (categories_of_complete col u Hu) as (c0 & Hc0 & Huc).
  destruct (indicator_one_hot (categories_of col) v c0
              (categories_of_sorted col) Hc0
              (cell_eqb_trans v u c0 Hvu Huc)) as (k & c' & Hk & Hc' & Hind).
  exists pre, post, k, c'. rewrite <- Hind. done.
Qed.
End Further.

(** * The further properties on concrete data *)

Lemma features_exclude_the_label_witness :
  ∃ df X y,
    (generate_data 9 world0).2 = Ok df
    ∧ df_drop df ["is_fraud"] = Ok X
    ∧ df_getitem df "is_fraud" = Ok y
    ∧ X.*1 = ["amount"; "payment_method"; "device_type"; "hour"]
    ∧ df_lookup X "is_fraud" = None
    ∧ (∀ c, c ≠ "is_fraud" → df_lookup X c = df_lookup df c)
    ∧ select_dtypes_include_number X = ["amount"; "hour"]
    ∧ select_dtypes_exclude_number X = ["payment_method"; "device_type"]
    ∧ nrows X = 9 ∧ col_length y = 9.
Proof.
  exact (@features_exclude_the_label numpy_cyclic sklearn_plain
           numpy_cyclic_contract 9 world0).
Defined.

Lemma train_failure_leaves_preprocessor_fitted_witness :
  (train G_all shop shop_labels 1%positive 2%positive world_objs_counting).2
  = Raise (ValueError "Expected n_neighbors <= n_samples_fit")
  ∧ ∃ f,
      heap (train G_all shop shop_labels 1%positive 2%positive
              world_objs_counting).1
      = <[1%positive:=OColumnTransformer (plan_of shop) (Some f)]>
          (heap world_objs_counting).
Proof.
  destruct (train_failure_leaves_preprocessor_fitted
              G_all shop shop_labels 1%positive 2%positive
              world_objs_counting (plan_of shop) None
              (RandomForestClassifier 300 42) None _ _ _
              eq_refl eq_refl eq_refl eq_refl) as [Hraise Hheap].
  split; [exact Hraise | eexists; exact Hheap].
Defined.

Lemma evaluate_requires_the_step_names_witness :
  evaluate 3%positive shop_new shop_labels world_renamed_steps
  = (world_renamed_steps, Raise (KeyError "prep")).
Proof.
  apply (evaluate_requires_the_step_names 3%positive
           [("scale", 1%positive); ("model", 2%positive)]);
    reflexivity.
Defined.

Lemma evaluate_needs_two_probability_columns_witness :
  (evaluate 3%positive shop_new shop_labels world_trained_one_class).2
  = Raise (IndexError "index is out of bounds for axis 1")
  ∧ stdout (evaluate 3%positive shop_new shop_labels
              world_trained_one_class).1
    = stdout world_trained_one_class.
Proof.
  eapply (evaluate_needs_two_probability_columns 3%positive 1%positive
            2%positive _ _ _ _ shop_new shop_labels world_trained_one_class
            _ _ _ 0 [1%Q]);
    [reflexivity .. | cbn; lia].
Defined.

Lemma evaluate_report_survives_auc_failure_witness :
  (evaluate 3%positive shop_new (IntCol [0; 0]%Z) world_trained).2
  = Raise (ValueError "Only one class present in y_true")
  ∧ stdout (evaluate 3%positive shop_new (IntCol [0; 0]%Z) world_trained).1
    = (stdout world_trained ++ ["precision recall f1-score support"])%list.
Proof.
  eapply (evaluate_report_survives_auc_failure 3%positive 1%positive
            2%positive _ _ _ _ shop_new (IntCol [0; 0]%Z) world_trained);
    reflexivity.
Defined.

(** With no fraud drawn the classifier sees one class, and the run stops
    in [evaluate]. *)
Lemma main_without_fraud_raises :
  (main G_none world_no_fraud).2
  = Raise (IndexError "index is out of bounds for axis 1").
Proof. vm_compute. reflexivity. Qed.

Lemma main_writes_no_file_when_it_raises_witness :
  files (main G_none world_no_fraud).1 = files world_no_fraud.
Proof.
  apply (main_writes_no_file_when_it_raises G_none world_no_fraud
           (IndexError "index is out of bounds for axis 1")).
  vm_compute. reflexivity.
Defined.

Lemma main_stores_the_fitted_stages_witness :
  ∃ num cat f fm,
    files (main G_all world0).1 =
    <["fraud_model.pkl":=
        PkPipeline
          [("prep", PkColumnTransformer
                      [("num", StandardScaler, num);
                       ("cat", OneHotEncoder HU_ignore, cat)] (Some f));
           ("clf", PkClassifier (RandomForestClassifier 300 42) (Some fm))]]>
      (files world0).
Proof.
  apply (main_stores_the_fitted_stages G_all world0).
  vm_compute. reflexivity.
Defined.

Lemma main_fits_only_on_the_training_partition_witness :
  ∃ df X y s' X_train X_test y_train y_test p m pipe Xt Xr yr Xp,
    (generate_data 1000 world0).2 = Ok df
    ∧ df_drop df ["is_fraud"] = Ok X
    ∧ df_getitem df "is_fraud" = Ok y
    ∧ @train_test_split numpy_cyclic sklearn_plain X y (Some y) (25 # 100)
        (np_random (generate_data 1000 world0).1)
      = (Ok (X_train, X_test, y_train, y_test), s')
    ∧ calls (main G_all world0).1 =
      (calls world0 ++ [Call_fit_transform p X_train]
         ++ rebalance_calls G_all Xt y_train
         ++ [Call_fit m Xr yr; Call_transform p X_test; Call_predict m Xp;
             Call_predict_proba m Xp; Call_dump pipe "fraud_model.pkl"])%list.
Proof.
  apply (main_fits_only_on_the_training_partition G_all world0).
  vm_compute. reflexivity.
Defined.

Lemma transformed_rows_have_the_planned_width_witness :
  length [7; 1; 0; 0]%Q =
  length (select_dtypes_include_number shop)
  + sum_list_with (ncats shop) (select_dtypes_exclude_number shop).
Proof.
  apply (transformed_rows_have_the_planned_width shop shop_f shop_new
           [[7; 1; 0; 0]; [8.25; 2; 1; 0]]%Q);
    [reflexivity .. | left].
Defined.

Lemma seen_category_is_one_hot_witness :
  ∃ pre post k c',
    [[7; 1; 0; 0]; [8.25; 2; 1; 0]]%Q !! 1 =
    Some (pre ++ <[k:=1%Q]>
                   (repeat 0%Q
                      (length (categories_of
                                 (ObjCol ["CARD"; "UPI"; "CARD"]))))
              ++ post)%list
    ∧ length pre =
      length (select_dtypes_include_number shop)
      + sum_list_with (ncats shop)
          (take 0 (select_dtypes_exclude_number shop))
    ∧ categories_of (ObjCol ["CARD"; "UPI"; "CARD"]) !! k = Some c'
    ∧ cell_eqb (CStr "CARD") c' = true.
Proof.
  apply (seen_category_is_one_hot shop shop_f shop_new
           [[7; 1; 0; 0]; [8.25; 2; 1; 0]]%Q 1 0 "payment_method"
           (ObjCol ["CARD"; "UPI"; "CARD"])
           (ObjCol ["NETBANKING"; "CARD"]) (CStr "CARD") (CStr "CARD"));
    [reflexivity .. | left | reflexivity].
Defined.
